(** * A shallow embedding of the ts-template-mcp server

    The repository wires a Fastify web server to the Model Context Protocol
    SDK.  The code that is the repository's own is embedded below:

    - [JS]: the JavaScript data the code manipulates (IEEE-754 numbers,
      strings, JSON values, thrown errors) and the handful of language
      built-ins the tool bodies call ([Number::toString], [Math.round],
      [Number.prototype.toFixed], [JSON.stringify] ...);
    - [Zod]: the part of the schema library that [commonSchemas.ts] and
      [toolSchemas.ts] use;
    - [Schemas]: [commonSchemas.ts] and [toolSchemas.ts];
    - [ErrorHandler]: [utils/errorHandler.ts];
    - [Weather]: [plugins/weatherPlugin.ts];
    - [Server]: [server.ts] in its three shapes (tools registered with an
      [inputSchema]; tools validating with [validateToolArgs]; request
      handlers installed with [setRequestHandler]) and the [/mcp] route with
      its session map.

    The MCP SDK and Fastify are third-party collaborators.  What they do
    between the route's call of [transport.handleRequest] and the tool
    callback is not repository code; the route model takes the transport's
    observable behaviour as an input. *)

From Stdlib Require Import ZArith String Ascii List Bool Lia.
From Stdlib Require Import PrimFloat SpecFloat FloatOps FloatAxioms.
From stdpp Require Import gmap strings.

#[local] Set Warnings "-inexact-float,-register-all".

(* ===================================================================== *)
(** * JavaScript data and built-ins                                        *)
(* ===================================================================== *)

Module JS.

Local Open Scope Z_scope.

(** The double quote, as a one-character string and as a character. *)
Definition dq_char : ascii := ascii_of_nat 34.
Definition dq : string := String dq_char EmptyString.
Definition nl : string := String (ascii_of_nat 10) EmptyString.

(** ** Strings.  A character of the model stands for one UTF-16 code unit of
    the JavaScript string, so [String.length] is the [length] property. *)

Definition str_length (s : string) : Z := Z.of_nat (String.length s).

Definition take_str (n : nat) (s : string) : string := substring 0 n s.

Definition drop_str (n : nat) (s : string) : string :=
  substring n (String.length s - n) s.

Fixpoint zeros (n : nat) : string :=
  match n with
  | O => ""
  | S n' => String "0" (zeros n')
  end.

(** [String.prototype.includes]. *)
Fixpoint includes (needle hay : string) : bool :=
  if String.prefix needle hay then true
  else match hay with
       | EmptyString => false
       | String _ hay' => includes needle hay'
       end.

(** [Array.prototype.join]. *)
Fixpoint join (sep : string) (xs : list string) : string :=
  match xs with
  | [] => ""
  | [x] => x
  | x :: rest => x +:+ sep +:+ join sep rest
  end.

(** ** Integers in decimal. *)

Definition digit_char (d : Z) : ascii := ascii_of_nat (48 + Z.to_nat d).

Fixpoint dec_digits_go (fuel : nat) (n : Z) (acc : string) : string :=
  match fuel with
  | O => acc
  | S fuel' =>
      let acc' := String (digit_char (n mod 10)) acc in
      if n / 10 =? 0 then acc' else dec_digits_go fuel' (n / 10) acc'
  end.

(** Decimal digits of [n >= 0]; a number has at most [log2 n + 1] of them. *)
Definition dec_digits (n : Z) : string :=
  dec_digits_go (S (Z.to_nat (Z.log2 n))) n "".

Definition int_to_string (n : Z) : string :=
  if n <? 0 then "-" +:+ dec_digits (- n) else dec_digits n.

(** ** Numbers.  A JavaScript number is an IEEE-754 binary64 value: Rocq's
    primitive [float].  [Prim2SF] exposes sign, mantissa and exponent
    ([S754_finite s m e] is [(-1)^s * m * 2^e]), so that the decimal
    conversions below are exact integer arithmetic. *)

Definition js_add (a b : float) : float := PrimFloat.add a b.
Definition js_sub (a b : float) : float := PrimFloat.sub a b.
Definition js_mul (a b : float) : float := PrimFloat.mul a b.
Definition js_div (a b : float) : float := PrimFloat.div a b.

(** [a === b], [a < b], [a > b] on numbers. *)
Definition js_strict_eq (a b : float) : bool := PrimFloat.eqb a b.
Definition js_lt (a b : float) : bool := PrimFloat.ltb a b.
Definition js_gt (a b : float) : bool := PrimFloat.ltb b a.
Definition js_le (a b : float) : bool := PrimFloat.leb a b.

Definition js_is_nan (a : float) : bool := PrimFloat.is_nan a.

(** The double of an integer (exact below [2^53]). *)
Definition num_of_Z (n : Z) : float :=
  match n with
  | Z0 => 0%float
  | Zpos p => SF2Prim (S754_finite false p 0)
  | Zneg p => SF2Prim (S754_finite true p 0)
  end.

(** The exact value of a finite double, as a fraction [(num, den)]. *)
Definition exact_value (x : float) : option (Z * Z) :=
  match Prim2SF x with
  | S754_zero _ => Some (0, 1)
  | S754_finite neg m e =>
      let n := Z.pos m * 2 ^ Z.max e 0 in
      Some (if neg then - n else n, 2 ^ Z.max (- e) 0)
  | _ => None
  end.

(** Equality of two fractions with positive denominators. *)
Definition frac_eq (p q : Z * Z) : Prop := fst p * snd q = fst q * snd p.
Definition frac_add (p q : Z * Z) : Z * Z :=
  (fst p * snd q + fst q * snd p, snd p * snd q).
Definition frac_sub (p q : Z * Z) : Z * Z :=
  (fst p * snd q - fst q * snd p, snd p * snd q).
Definition frac_mul (p q : Z * Z) : Z * Z := (fst p * fst q, snd p * snd q).
(** Quotient by a non-zero fraction, the denominator kept positive. *)
Definition frac_div (p q : Z * Z) : Z * Z :=
  if fst q <? 0 then (- (fst p * snd q), snd p * - fst q)
  else (fst p * snd q, snd p * fst q).

(** *** [Number::toString] (ECMA-262 6.1.6.1.20).  The digits [s] and the
    decimal exponent [q] are the shortest ones whose value [s * 10^q] rounds
    to the double; among those the closest to it. *)

Definition nearest (num den : Z) : Z :=
  let s0 := num / den in
  let r := 2 * (num - s0 * den) in
  if r <? den then s0
  else if den <? r then s0 + 1
  else if Z.even s0 then s0 else s0 + 1.

(** The [s] for exponent [q], if some [s * 10^q] lies in the rounding
    interval of [m * 2^e].  All bounds are scaled by [4 * 2^max(-e,0)]. *)
Definition candidate (m : positive) (e q : Z) : option Z :=
  let P := 2 ^ Z.max e 0 in
  let Dn := 4 * 2 ^ Z.max (- e) 0 in
  let V := 4 * Z.pos m * P in
  let hi := V + 2 * P in
  let lo := if (Z.pos m =? 2 ^ 52) && (-1074 <? e) then V - P else V - 2 * P in
  let closed := Z.even (Z.pos m) in
  let up := 10 ^ Z.max (- q) 0 in
  let A := 10 ^ Z.max q 0 * Dn in
  let smax := if closed then (hi * up) / A else (hi * up - 1) / A in
  let smin := if closed then (lo * up + A - 1) / A else (lo * up) / A + 1 in
  if (smin <=? smax) && (1 <=? smax)
  then Some (Z.max smin (Z.min smax (nearest (V * up) A)))
  else None.

Fixpoint shortest_go (fuel : nat) (m : positive) (e q : Z) : Z * Z :=
  match fuel with
  | O => (0, 0)
  | S fuel' =>
      match candidate m e q with
      | Some s => (s, q)
      | None => shortest_go fuel' m e (q - 1)
      end
  end.

(** The search starts above [log10 (m * 2^e)] and needs at most 17 digits. *)
Definition shortest (m : positive) (e : Z) : Z * Z :=
  shortest_go 40 m e (((e + Z.log2 (Z.pos m) + 1) * 30103) / 100000 + 2).

Definition format_digits (s q : Z) : string :=
  let ds := dec_digits s in
  let k := str_length ds in
  let n := q + k in
  if (k <=? n) && (n <=? 21) then ds +:+ zeros (Z.to_nat (n - k))
  else if (0 <? n) && (n <=? 21) then
    take_str (Z.to_nat n) ds +:+ "." +:+ drop_str (Z.to_nat n) ds
  else if (-6 <? n) && (n <=? 0) then "0." +:+ zeros (Z.to_nat (- n)) +:+ ds
  else
    let ex := (if n - 1 <? 0 then "-" else "+") +:+ dec_digits (Z.abs (n - 1)) in
    if k =? 1 then ds +:+ "e" +:+ ex
    else take_str 1 ds +:+ "." +:+ drop_str 1 ds +:+ "e" +:+ ex.

(** [`${x}`] for a number [x]. *)
Definition num_to_string (x : float) : string :=
  match Prim2SF x with
  | S754_nan => "NaN"
  | S754_zero _ => "0"
  | S754_infinity false => "Infinity"
  | S754_infinity true => "-Infinity"
  | S754_finite neg m e =>
      let '(s, q) := shortest m e in
      (if neg then "-" else "") +:+ format_digits s q
  end.

(** *** [Math.floor], [Math.round].  Both return an integral double; the
    model returns the integer when the argument is finite. *)

Definition floor_Z (x : float) : option Z :=
  match Prim2SF x with
  | S754_zero _ => Some 0
  | S754_finite false m e => Some (Z.shiftl (Z.pos m) e)
  | S754_finite true m e => Some (Z.shiftl (Z.neg m) e)
  | _ => None
  end.

(** The integer closest to [x], ties towards +infinity: [floor (x + 1/2)],
    computed exactly as [floor ((2 * num + den) / (2 * den))]. *)
Definition round_Z (x : float) : option Z :=
  match exact_value x with
  | Some (n, d) => Some ((2 * n + d) / (2 * d))
  | None => None
  end.

(** [`${Math.round(x)}`].  Below [2^53] the rounded value is that integer,
    printed in decimal ([-0] prints as [0]); from [2^52] on a double is
    integral already and [Math.round] returns it unchanged, as it does a
    non-finite argument. *)
Definition round_to_string (x : float) : string :=
  match round_Z x with
  | Some n => if Z.abs n <? 2 ^ 53 then int_to_string n else num_to_string x
  | None => num_to_string x
  end.

(** *** [Number.prototype.toFixed(f)] (ECMA-262 21.1.3.3) for [f = digits]. *)
Definition toFixed (digits : nat) (x : float) : string :=
  match Prim2SF x with
  | S754_nan => "NaN"
  | S754_infinity _ => num_to_string x
  | S754_zero _ =>
      match digits with
      | O => "0"
      | S _ => "0." +:+ zeros digits
      end
  | S754_finite neg m e =>
      if 10 ^ 21 * 2 ^ Z.max (- e) 0 <=? Z.pos m * 2 ^ Z.max e 0
      then num_to_string x
      else
        let num := Z.pos m * 2 ^ Z.max e 0 * 10 ^ Z.of_nat digits in
        let den := 2 ^ Z.max (- e) 0 in
        (* the n with n / 10^f - x closest to zero, the larger on a tie *)
        let n := (2 * num + den) / (2 * den) in
        let ds := dec_digits n in
        let ds := if (String.length ds <=? digits)%nat
                  then zeros (digits + 1 - String.length ds) +:+ ds else ds in
        let k := String.length ds in
        (if neg then "-" else "") +:+
        match digits with
        | O => ds
        | S _ => take_str (k - digits) ds +:+ "." +:+ drop_str (k - digits) ds
        end
  end.

(** ** Values.  What JSON can carry, plus [undefined]. *)

Inductive value : Type :=
| VUndefined
| VNull
| VBool (b : bool)
| VNumber (x : float)
| VString (s : string)
| VArray (items : list value)
| VObject (fields : list (string * value)).

(** Property access [o[k]]: [undefined] when the key is absent. *)
Fixpoint get (k : string) (fields : list (string * value)) : value :=
  match fields with
  | [] => VUndefined
  | (k', v) :: rest => if String.eqb k k' then v else get k rest
  end.

(** Property access on any value, [v?.k] included: only objects carry the
    properties the code asks for. *)
Definition prop (v : value) (k : string) : value :=
  match v with
  | VObject fields => get k fields
  | _ => VUndefined
  end.

(** [!v] is [negb (truthy v)]. *)
Definition truthy (v : value) : bool :=
  match v with
  | VUndefined | VNull => false
  | VBool b => b
  | VNumber x => negb (js_is_nan x || PrimFloat.eqb x 0%float)
  | VString s => negb (String.eqb s "")
  | VArray _ | VObject _ => true
  end.

(** [ToString], as a template literal applies it. *)
Fixpoint ToString (v : value) : string :=
  match v with
  | VUndefined => "undefined"
  | VNull => "null"
  | VBool true => "true"
  | VBool false => "false"
  | VNumber x => num_to_string x
  | VString s => s
  | VArray items =>
      join "," ((fix go (xs : list value) : list string :=
                   match xs with
                   | [] => []
                   | (VUndefined | VNull) :: rest => "" :: go rest
                   | x :: rest => ToString x :: go rest
                   end) items)
  | VObject _ => "[object Object]"
  end.

(** ** [JSON.stringify (v, null, 2)] (ECMA-262 25.5.2). *)

Definition hex_digit (n : nat) : ascii :=
  ascii_of_nat (if (n <? 10)%nat then 48 + n else 87 + n).

Definition quote_char (c : ascii) : string :=
  let n := nat_of_ascii c in
  if (n =? 34)%nat then String "\" dq
  else if (n =? 92)%nat then "\\"
  else if (n =? 8)%nat then "\b"
  else if (n =? 12)%nat then "\f"
  else if (n =? 10)%nat then "\n"
  else if (n =? 13)%nat then "\r"
  else if (n =? 9)%nat then "\t"
  else if (n <? 32)%nat
       then "\u00" +:+ String (hex_digit (n / 16)) (String (hex_digit (n mod 16)) "")
  else String c "".

Fixpoint quote_body (s : string) : string :=
  match s with
  | EmptyString => ""
  | String c rest => quote_char c +:+ quote_body rest
  end.

Definition quote (s : string) : string := dq +:+ quote_body s +:+ dq.

Fixpoint spaces (n : nat) : string :=
  match n with
  | O => ""
  | S n' => String " " (spaces n')
  end.

(** [None] is the [undefined] result of [SerializeJSONProperty]: an object
    drops such a property, an array prints it as [null]. *)
Fixpoint stringify_at (indent : nat) (v : value) : option string :=
  match v with
  | VUndefined => None
  | VNull => Some "null"
  | VBool true => Some "true"
  | VBool false => Some "false"
  | VNumber x =>
      match Prim2SF x with
      | S754_nan | S754_infinity _ => Some "null"
      | _ => Some (num_to_string x)
      end
  | VString s => Some (quote s)
  | VArray items =>
      let step := (indent + 2)%nat in
      let parts :=
        (fix go (xs : list value) : list string :=
           match xs with
           | [] => []
           | x :: rest =>
               match stringify_at step x with
               | Some t => t
               | None => "null"
               end :: go rest
           end) items in
      match parts with
      | [] => Some "[]"
      | _ => Some ("[" +:+ nl +:+ spaces step +:+
                   join ("," +:+ nl +:+ spaces step) parts +:+
                   nl +:+ spaces indent +:+ "]")
      end
  | VObject fields =>
      let step := (indent + 2)%nat in
      let parts :=
        (fix go (xs : list (string * value)) : list string :=
           match xs with
           | [] => []
           | (k, x) :: rest =>
               match stringify_at step x with
               | Some t => (quote k +:+ ": " +:+ t) :: go rest
               | None => go rest
               end
           end) fields in
      match parts with
      | [] => Some "{}"
      | _ => Some ("{" +:+ nl +:+ spaces step +:+
                   join ("," +:+ nl +:+ spaces step) parts +:+
                   nl +:+ spaces indent +:+ "}")
      end
  end.

Definition JSON_stringify (v : value) : string :=
  match stringify_at 0 v with
  | Some t => t
  | None => "undefined"
  end.

(** [String.prototype.trim] (the ASCII white space). *)
Definition is_space (c : ascii) : bool :=
  let n := nat_of_ascii c in
  ((9 <=? n)%nat && (n <=? 13)%nat) || (n =? 32)%nat.

Fixpoint trim_start (s : string) : string :=
  match s with
  | String c rest => if is_space c then trim_start rest else s
  | EmptyString => EmptyString
  end.

Fixpoint trim_end (s : string) : string :=
  match s with
  | String c rest =>
      match trim_end rest with
      | EmptyString => if is_space c then EmptyString else String c EmptyString
      | rest' => String c rest'
      end
  | EmptyString => EmptyString
  end.

Definition trim (s : string) : string := trim_end (trim_start s).

(** ** Thrown values.  The repository throws [Error] objects and two
    subclasses of its own; [instanceof] reads the class. *)

Inductive error_class : Type :=
| ClsError            (* new Error(...) *)
| ClsZodError         (* thrown by schema.parse *)
| ClsValidationError  (* errorHandler.ts *)
| ClsMCPError.        (* errorHandler.ts *)

Record issue : Type := mkIssue {
  issue_path : list string;
  issue_message : string
}.

Record js_error : Type := mkError {
  error_class_of : error_class;
  error_name : string;
  error_message : string;
  error_statusCode : option Z;
  error_code : option string;
  error_details : list issue
}.

(** [new Error(message)]. *)
Definition new_Error (message : string) : js_error :=
  mkError ClsError "Error" message None None [].

Inductive thrown : Type :=
| ThrownError (e : js_error)
| ThrownValue (v : value).

(** ** The world a tool body runs in: the random source behind
    [Math.random], the timers it waits on, and the clock. *)

Record world : Type := mkWorld {
  rng : nat -> float;          (* successive results of Math.random() *)
  rng_pos : nat;               (* how many were drawn *)
  delays : list Z;             (* setTimeout delays awaited, latest first *)
  clock_locale : string;       (* new Date().toLocaleString() *)
  clock_iso : string           (* new Date().toISOString() *)
}.

Inductive outcome (A : Type) : Type :=
| Returned (a : A)
| Threw (e : thrown).
Arguments Returned {A} a.
Arguments Threw {A} e.

(** An [async] function body: it may read and change the world, and either
    returns or throws (a rejected promise). *)
Definition M (A : Type) : Type := world -> world * outcome A.

Definition ret {A} (a : A) : M A := fun w => (w, Returned a).

Definition throw {A} (e : js_error) : M A := fun w => (w, Threw (ThrownError e)).

Definition bind {A B} (c : M A) (k : A -> M B) : M B :=
  fun w =>
    match c w with
    | (w', Returned a) => k a w'
    | (w', Threw e) => (w', Threw e)
    end.

Definition Math_random : M float :=
  fun w => (mkWorld (rng w) (S (rng_pos w)) (delays w) (clock_locale w) (clock_iso w),
            Returned (rng w (rng_pos w))).

(** [await new Promise(resolve => setTimeout(resolve, ms))]. *)
Definition sleep (ms : Z) : M unit :=
  fun w => (mkWorld (rng w) (rng_pos w) (ms :: delays w) (clock_locale w) (clock_iso w),
            Returned tt).

Definition Date_toLocaleString : M string := fun w => (w, Returned (clock_locale w)).
Definition Date_toISOString : M string := fun w => (w, Returned (clock_iso w)).

End JS.

Notation "'let!' x ':=' c 'in' k" := (JS.bind c (fun x => k))
  (at level 10, x name, c at level 100, k at level 200).

(* ===================================================================== *)
(** * The schema library, as far as the repository uses it                *)
(* ===================================================================== *)

Module Zod.
Import JS.

(** A parse is valid, dirty (a check failed, the value is still there) or
    aborted (wrong type: no value). *)
Inductive parsed (A : Type) : Type :=
| Valid (a : A)
| Dirty (a : A) (issues : list issue)
| Aborted (issues : list issue).
Arguments Valid {A} a.
Arguments Dirty {A} a issues.
Arguments Aborted {A} issues.

(** A schema parses the input found at [path]. *)
Definition schema (A : Type) : Type := list string -> value -> parsed A.

Definition issues_of {A} (p : parsed A) : list issue :=
  match p with
  | Valid _ => []
  | Dirty _ iss => iss
  | Aborted iss => iss
  end.

(** [getParsedType]. *)
Definition parsed_type (v : value) : string :=
  match v with
  | VUndefined => "undefined"
  | VNull => "null"
  | VBool _ => "boolean"
  | VNumber x => if js_is_nan x then "nan" else "number"
  | VString _ => "string"
  | VArray _ => "array"
  | VObject _ => "object"
  end.

(** The default message of an [invalid_type] issue. *)
Definition invalid_type_message (expected : string) (v : value) : string :=
  match v with
  | VUndefined => "Required"
  | _ => "Expected " +:+ expected +:+ ", received " +:+ parsed_type v
  end.

Definition with_checks {A} (path : list string) (a : A)
    (failed : list string) : parsed A :=
  match failed with
  | [] => Valid a
  | _ => Dirty a (map (mkIssue path) failed)
  end.

(** ** [z.string()] and its checks. *)
Inductive string_check : Type :=
| StrMin (n : Z) (message : string)
| StrMax (n : Z) (message : string)
| StrLength (n : Z) (message : string)
| StrRegex (test : string -> bool) (message : string).

Definition string_check_fails (s : string) (c : string_check) : list string :=
  match c with
  | StrMin n msg => if (str_length s <? n)%Z then [msg] else []
  | StrMax n msg => if (n <? str_length s)%Z then [msg] else []
  | StrLength n msg => if (str_length s =? n)%Z then [] else [msg]
  | StrRegex test msg => if test s then [] else [msg]
  end.

Definition z_string (checks : list string_check) : schema string :=
  fun path v =>
    match v with
    | VString s => with_checks path s (flat_map (string_check_fails s) checks)
    | _ => Aborted [mkIssue path (invalid_type_message "string" v)]
    end.

(** ** [z.number()] and its checks; [NaN] is not a number to it. *)
Inductive number_check : Type :=
| NumMin (bound : float) (message : string)
| NumMax (bound : float) (message : string).

Definition number_check_fails (x : float) (c : number_check) : list string :=
  match c with
  | NumMin bound msg => if js_lt x bound then [msg] else []
  | NumMax bound msg => if js_gt x bound then [msg] else []
  end.

Definition z_number (checks : list number_check) : schema float :=
  fun path v =>
    match v with
    | VNumber x =>
        if js_is_nan x
        then Aborted [mkIssue path (invalid_type_message "number" v)]
        else with_checks path x (flat_map (number_check_fails x) checks)
    | _ => Aborted [mkIssue path (invalid_type_message "number" v)]
    end.

(** ** [z.enum(options, { errorMap })]. *)
Definition joinValues (options : list string) : string :=
  join " | " (map (fun o => "'" +:+ o +:+ "'") options).

Definition z_enum (options : list string) (errorMap : option string)
  : schema string :=
  fun path v =>
    let say (dflt : string) :=
      match errorMap with
      | Some msg => msg
      | None => dflt
      end in
    match v with
    | VString s =>
        if existsb (String.eqb s) options then Valid s
        else Aborted [mkIssue path
               (say ("Invalid enum value. Expected " +:+ joinValues options +:+
                     ", received '" +:+ s +:+ "'"))]
    | _ => Aborted [mkIssue path (say (invalid_type_message (joinValues options) v))]
    end.

(** ** [z.object(shape)]: every field of the shape is parsed, in the
    shape's order, and the issues add up; unknown keys are stripped. *)
Definition ap {A B} (pf : parsed (A -> B)) (pa : parsed A) : parsed B :=
  match pf, pa with
  | Valid f, Valid a => Valid (f a)
  | Valid f, Dirty a iss => Dirty (f a) iss
  | Dirty f iss, Valid a => Dirty (f a) iss
  | Dirty f iss, Dirty a iss' => Dirty (f a) (iss ++ iss')
  | _, _ => Aborted (issues_of pf ++ issues_of pa)
  end.

Definition field {A} (key : string) (s : schema A) (path : list string)
    (fields : list (string * value)) : parsed A :=
  s (path ++ [key]) (get key fields).

Definition not_an_object {A} (path : list string) (v : value) : parsed A :=
  Aborted [mkIssue path (invalid_type_message "object" v)].

Definition z_object1 {A R} (k1 : string) (s1 : schema A) (mk : A -> R)
  : schema R :=
  fun path v =>
    match v with
    | VObject fs => ap (Valid mk) (field k1 s1 path fs)
    | _ => not_an_object path v
    end.

Definition z_object2 {A B R} (k1 : string) (s1 : schema A)
    (k2 : string) (s2 : schema B) (mk : A -> B -> R) : schema R :=
  fun path v =>
    match v with
    | VObject fs => ap (ap (Valid mk) (field k1 s1 path fs)) (field k2 s2 path fs)
    | _ => not_an_object path v
    end.

Definition z_object3 {A B C R} (k1 : string) (s1 : schema A)
    (k2 : string) (s2 : schema B) (k3 : string) (s3 : schema C)
    (mk : A -> B -> C -> R) : schema R :=
  fun path v =>
    match v with
    | VObject fs =>
        ap (ap (ap (Valid mk) (field k1 s1 path fs)) (field k2 s2 path fs))
           (field k3 s3 path fs)
    | _ => not_an_object path v
    end.

(** ** [schema.refine(check, { message, path })]: the check runs unless the
    inner parse aborted. *)
Definition refine {A} (s : schema A) (check : A -> bool) (message : string)
    (rpath : list string) : schema A :=
  fun path v =>
    match s path v with
    | Valid a => if check a then Valid a else Dirty a [mkIssue (path ++ rpath) message]
    | Dirty a iss =>
        if check a then Dirty a iss else Dirty a (iss ++ [mkIssue (path ++ rpath) message])
    | Aborted iss => Aborted iss
    end.

(** [new ZodError(issues)]. *)
Definition ZodError (issues : list issue) : js_error :=
  mkError ClsZodError "ZodError" "Invalid input" None None issues.

(** [schema.parse(data)]: the value, or a thrown [ZodError]. *)
Definition parse {A} (s : schema A) (data : value) : M A :=
  match s [] data with
  | Valid a => ret a
  | p => throw (ZodError (issues_of p))
  end.

(** [schema.safeParse(data).success]. *)
Definition accepts {A} (s : schema A) (data : value) : bool :=
  match s [] data with
  | Valid _ => true
  | _ => false
  end.

End Zod.

(* ===================================================================== *)
(** * [schemas/commonSchemas.ts] and [schemas/toolSchemas.ts]             *)
(* ===================================================================== *)

Module Schemas.
Import JS Zod.

(** ** commonSchemas.ts (the schemas the tools use). *)

Definition LatitudeSchema : schema float :=
  z_number [NumMin (-90)%float "Latitude must be between -90 and 90";
            NumMax 90%float "Latitude must be between -90 and 90"].

Definition LongitudeSchema : schema float :=
  z_number [NumMin (-180)%float "Longitude must be between -180 and 180";
            NumMax 180%float "Longitude must be between -180 and 180"].

Definition is_upper (c : ascii) : bool :=
  (65 <=? nat_of_ascii c)%nat && (nat_of_ascii c <=? 90)%nat.

(** [/^[A-Z]{2}$/.test(s)]. *)
Definition two_uppercase (s : string) : bool :=
  match s with
  | String c1 (String c2 EmptyString) => is_upper c1 && is_upper c2
  | _ => false
  end.

Definition StateSchema : schema string :=
  z_string [StrLength 2 "State code must be exactly 2 characters";
            StrRegex two_uppercase "State code must be 2 uppercase letters"].

Definition NameSchema : schema string :=
  z_string [StrMin 1 "Name is required";
            StrMax 100 "Name cannot exceed 100 characters"].

(** ** toolSchemas.ts. *)

Record SayHelloArgs : Type := mkSayHelloArgs { arg_name : string }.

Record CalculateArgs : Type := mkCalculateArgs {
  arg_operation : string;
  arg_a : float;
  arg_b : float
}.

Record WeatherForecastArgs : Type := mkWeatherForecastArgs {
  arg_latitude : float;
  arg_longitude : float
}.

Record WeatherAlertsArgs : Type := mkWeatherAlertsArgs { arg_state : string }.

Definition SayHelloSchema : schema SayHelloArgs :=
  z_object1 "name" NameSchema mkSayHelloArgs.

Definition operations : list string := ["add"; "subtract"; "multiply"; "divide"].

Definition CalculateSchema : schema CalculateArgs :=
  refine
    (z_object3
       "operation" (z_enum operations
                      (Some "Operation must be one of: add, subtract, multiply, divide"))
       "a" (z_number [])
       "b" (z_number [])
       mkCalculateArgs)
    (fun data =>
       if String.eqb (arg_operation data) "divide" && js_strict_eq (arg_b data) 0%float
       then false
       else true)
    "Division by zero is not allowed"
    ["b"].

Definition WeatherForecastSchema : schema WeatherForecastArgs :=
  z_object2 "latitude" LatitudeSchema "longitude" LongitudeSchema
    mkWeatherForecastArgs.

Definition WeatherAlertsSchema : schema WeatherAlertsArgs :=
  z_object1 "state" StateSchema mkWeatherAlertsArgs.

Definition describe_issue (err : issue) : string :=
  join "." (issue_path err) +:+ ": " +:+ issue_message err.

(** [validateToolArgs(schema, args)]: a [ZodError] is rethrown as an
    [Error] that lists every issue; anything else is rethrown as it is. *)
Definition validateToolArgs {T} (s : schema T) (args : value) : M T :=
  fun w =>
    match parse s args w with
    | (w', Returned a) => (w', Returned a)
    | (w', Threw (ThrownError error)) =>
        match error_class_of error with
        | ClsZodError =>
            let errorMessages := join ", " (map describe_issue (error_details error)) in
            throw (new_Error ("Validation failed: " +:+ errorMessages)) w'
        | _ => (w', Threw (ThrownError error))
        end
    | (w', Threw e) => (w', Threw e)
    end.

End Schemas.

(* ===================================================================== *)
(** * [utils/errorHandler.ts]                                             *)
(* ===================================================================== *)

Module ErrorHandler.
Import JS Zod.

(** A reply of the web framework: not sent yet, or sent with a status and
    a body. *)
Record reply : Type := mkReply {
  sent : bool;
  statusCode : Z;
  payload : option value
}.

Definition fresh_reply : reply := mkReply false 200 None.

(** A line of the server log. *)
Inductive log_entry : Type :=
| LogInfo (message : string)
| LogError (message : string) (error : thrown).

(** [reply.status(code).send(body)]. *)
Definition send (code : Z) (body : value) : reply := mkReply true code (Some body).

(** An issue as it is serialised (its path and message; the issue code
    and the type names of the library are left out). *)
Definition issue_value (i : issue) : value :=
  VObject [("path", VArray (map VString (issue_path i)));
           ("message", VString (issue_message i))].

Definition details_value (e : js_error) : value :=
  VArray (map issue_value (error_details e)).

Definition number_value (n : Z) : value := VNumber (num_of_Z n).

(** [new ValidationError(message, details)] and [new MCPError(...)]. *)
Definition ValidationError (message : string) (details : list issue) : js_error :=
  mkError ClsValidationError "ValidationError" message (Some 400%Z)
    (Some "VALIDATION_ERROR") details.

Definition MCPError (message : string) (details : list issue) : js_error :=
  mkError ClsMCPError "MCPError" message (Some 500%Z) (Some "MCP_ERROR") details.

(** [x || 500] on an optional status: [undefined] and [0] are falsy. *)
Definition status_or_500 (s : option Z) : Z :=
  match s with
  | Some n => if (n =? 0)%Z then 500%Z else n
  | None => 500%Z
  end.

Definition string_or (s dflt : string) : string :=
  match s with
  | EmptyString => dflt
  | _ => s
  end.

(** [error.statusCode] of an instance of a class that initialises the
    field ([ValidationError]: 400, [MCPError]: 500). *)
Definition class_status (error : js_error) (initial : Z) : Z :=
  match error_statusCode error with
  | Some n => n
  | None => initial
  end.

(** [handleError(error, request, reply)]: the error is logged, then
    answered according to its class.  [timestamp] is
    [new Date().toISOString()]; [development] is
    [process.env.NODE_ENV === 'development'], [stack] the error's stack. *)
Definition handleError (error : js_error) (timestamp : string)
    (development : bool) (stack : string) : log_entry * reply :=
  (LogError "Request error" (ThrownError error),
   match error_class_of error with
   | ClsZodError =>
       send 400 (VObject [("error", VString "Validation Error");
                          ("message", VString "Invalid request data");
                          ("details", details_value error);
                          ("statusCode", number_value 400);
                          ("timestamp", VString timestamp)])
   | ClsValidationError =>
       let code := class_status error 400 in
       send code (VObject [("error", VString (error_name error));
                           ("message", VString (error_message error));
                           ("details", details_value error);
                           ("statusCode", number_value code);
                           ("timestamp", VString timestamp)])
   | ClsMCPError =>
       let code := class_status error 500 in
       send code (VObject [("error", VString (error_name error));
                           ("message", VString (error_message error));
                           ("details", details_value error);
                           ("statusCode", number_value code);
                           ("timestamp", VString timestamp)])
   | ClsError =>
       if includes "MCP" (error_message error)
       then send 500 (VObject [("error", VString "MCP Server Error");
                               ("message", VString (error_message error));
                               ("statusCode", number_value 500);
                               ("timestamp", VString timestamp)])
       else
         let code := status_or_500 (error_statusCode error) in
         send code
           (VObject ([("error", VString (string_or (error_message error)
                                           "Internal Server Error"));
                      ("statusCode", number_value code);
                      ("timestamp", VString timestamp)]
                     ++ (if development then [("stack", VString stack)] else [])))
   end).


(** [validateAndThrow(data, schema, message = 'Validation failed')]. *)
Definition validateAndThrow {T} (data : value) (s : schema T)
    (message : string) : M T :=
  fun w =>
    match parse s data w with
    | (w', Threw (ThrownError error)) =>
        match error_class_of error with
        | ClsZodError => throw (ValidationError message (error_details error)) w'
        | _ => (w', Threw (ThrownError error))
        end
    | r => r
    end.

End ErrorHandler.

(* ===================================================================== *)
(** * [config/constants.ts] (the tables the claims refer to)              *)
(* ===================================================================== *)

Module Constants.

Module MCP_URIS.
Definition SERVER_INFO : string := "mcp://server-info".
Definition HELLO_MESSAGE : string := "mcp://hello-message".
End MCP_URIS.

Module ERROR_MESSAGES.
Definition INVALID_SESSION : string := "Invalid or missing session ID".
Definition TOOL_NOT_FOUND : string := "Tool not found".
Definition RESOURCE_NOT_FOUND : string := "Resource not found".
Definition VALIDATION_ERROR : string := "Validation error".
Definition INTERNAL_ERROR : string := "Internal server error".
Definition MCP_ERROR : string := "MCP protocol error".
End ERROR_MESSAGES.

Module HTTP_STATUS.
Definition OK : Z := 200.
Definition CREATED : Z := 201.
Definition BAD_REQUEST : Z := 400.
Definition UNAUTHORIZED : Z := 401.
Definition FORBIDDEN : Z := 403.
Definition METHOD_NOT_ALLOWED : Z := 405.
Definition SERVICE_UNAVAILABLE : Z := 503.
End HTTP_STATUS.

Module MCP_METHODS.
Definition TOOLS_LIST : string := "tools/list".
Definition TOOLS_CALL : string := "tools/call".
Definition RESOURCES_LIST : string := "resources/list".
Definition RESOURCES_READ : string := "resources/read".
Definition PROMPTS_LIST : string := "prompts/list".
Definition PROMPTS_GET : string := "prompts/get".
End MCP_METHODS.

End Constants.

(* ===================================================================== *)
(** * What the server hands to the MCP SDK                                *)
(* ===================================================================== *)

Module Mcp.
Import JS Zod.

(** [{ type: 'text', text }] and [{ content: [...] }]. *)
Record content_item : Type := mkContent {
  content_type : string;
  content_text : string
}.

Record tool_result : Type := mkToolResult { content : list content_item }.

(** [{ uri, mimeType, text }] and [{ contents: [...] }]. *)
Record resource_content : Type := mkResourceContent {
  content_uri : string;
  content_mimeType : string;
  resource_text : string
}.

Record resource_result : Type := mkResourceResult {
  contents : list resource_content
}.

Record descriptor : Type := mkDescriptor {
  title : string;
  description : string
}.

(** A tool as [registerTool] receives it: with an [inputSchema] the
    callback takes the parsed arguments, without one the raw arguments. *)
Inductive registered_tool : Type :=
| ToolWithSchema {T : Type} (name : string) (config : descriptor)
    (inputSchema : schema T) (callback : T -> M tool_result)
| ToolWithoutSchema (name : string) (config : descriptor)
    (callback : value -> M tool_result).

Definition tool_name (t : registered_tool) : string :=
  match t with
  | ToolWithSchema name _ _ _ => name
  | ToolWithoutSchema name _ _ => name
  end.

Definition tool_descriptor (t : registered_tool) : descriptor :=
  match t with
  | ToolWithSchema _ config _ _ => config
  | ToolWithoutSchema _ config _ => config
  end.

Record registered_resource : Type := mkResource {
  resource_name : string;
  resource_uri : string;
  resource_descriptor : descriptor;
  resource_mimeType : string;
  readCallback : string -> M resource_result   (* receives [uri.href] *)
}.

(** The capability table of a [McpServer]. *)
Record McpServer : Type := mkServer {
  server_name : string;
  server_version : string;
  tools : list registered_tool;
  resources : list registered_resource
}.

Definition new_McpServer (name version : string) : McpServer :=
  mkServer name version [] [].

(** [server.registerTool(...)], [server.registerResource(...)]: the entry is
    added after the ones registered before. *)
Definition registerTool (t : registered_tool) (server : McpServer) : McpServer :=
  mkServer (server_name server) (server_version server)
    (tools server ++ [t]) (resources server).

Definition registerResource (r : registered_resource) (server : McpServer)
  : McpServer :=
  mkServer (server_name server) (server_version server)
    (tools server) (resources server ++ [r]).

(** What [tools/list] and [resources/list] are answered from. *)
Definition tools_list (server : McpServer) : list (string * descriptor) :=
  map (fun t => (tool_name t, tool_descriptor t)) (tools server).

Definition resources_list (server : McpServer)
  : list (string * string * descriptor * string) :=
  map (fun r => (resource_uri r, resource_name r, resource_descriptor r,
                 resource_mimeType r))
      (resources server).


Definition find_resource (uri : string) (server : McpServer)
  : option registered_resource :=
  find (fun r => String.eqb (resource_uri r) uri) (resources server).

Definition text_result (text : string) : tool_result :=
  mkToolResult [mkContent "text" text].

End Mcp.

(* ===================================================================== *)
(** * [plugins/weatherPlugin.ts]                                          *)
(* ===================================================================== *)

Module Weather.
Import JS Zod Schemas Mcp.

Definition conditions : list string := ["Sunny"; "Cloudy"; "Rainy"; "Partly Cloudy"].

(** [conditions[i]] in a template: [undefined] off the array. *)
Definition condition_at (i : option Z) : string :=
  match i with
  | Some n => if (0 <=? n)%Z then nth (Z.to_nat n) conditions "undefined" else "undefined"
  | None => "undefined"
  end.

(** The pictographs that open the lines of the forecast. *)
Definition icon_conditions : string := "🌤️".
Definition icon_temperature : string := "🌡️".
Definition icon_updated : string := "⏰".
Definition icon_ok : string := "✅".
Definition icon_warning : string := "⚠️".
Definition degree : string := "°".

(** [simulateWeatherAPI(latitude, longitude)]. *)
Definition simulateWeatherAPI (latitude longitude : float) : M string :=
  let! _ := sleep 100 in
  let! r1 := Math_random in
  let temperature :=
    js_add (js_add 20%float (js_mul latitude 0.5%float))
           (js_sub (js_mul r1 10%float) 5%float) in
  let! r2 := Math_random in
  let condition := condition_at (floor_Z (js_mul r2 4%float)) in
  let! now := Date_toLocaleString in
  ret (trim (nl +:+
             icon_conditions +:+ "  Current Conditions: " +:+ condition +:+ nl +:+
             icon_temperature +:+ "  Temperature: " +:+ round_to_string temperature +:+
               degree +:+ "C" +:+ nl +:+
             "        Location: " +:+ toFixed 4 latitude +:+ ", " +:+
               toFixed 4 longitude +:+ nl +:+
             icon_updated +:+ " Updated: " +:+ now +:+ nl +:+
             "  ")).

Definition alerts : list string :=
  ["Severe Thunderstorm Warning"; "Flash Flood Watch"; "Heat Advisory";
   "Winter Weather Advisory"].

(** [alerts.filter(() => Math.random() > 0.7)]: one draw per element. *)
Fixpoint filter_random (xs : list string) : M (list string) :=
  match xs with
  | [] => ret []
  | x :: rest =>
      let! r := Math_random in
      let! kept := filter_random rest in
      ret (if js_gt r 0.7%float then x :: kept else kept)
  end.

Definition no_alerts : string :=
  icon_ok +:+ " No active weather alerts for this state.".

(** [simulateAlertsAPI()]. *)
Definition simulateAlertsAPI : M string :=
  let! _ := sleep 100 in
  let! r := Math_random in
  let hasAlerts := js_gt r 0.5%float in
  if negb hasAlerts then ret no_alerts
  else
    let! kept := filter_random alerts in
    let activeAlerts := firstn 2 kept in
    match activeAlerts with
    | [] => ret no_alerts
    | _ => ret (join nl (map (fun alert => icon_warning +:+ "  " +:+ alert) activeAlerts))
    end.

Definition getWeatherForecast (args : value) : M tool_result :=
  let! validated := validateToolArgs WeatherForecastSchema args in
  let latitude := arg_latitude validated in
  let longitude := arg_longitude validated in
  let! forecast := simulateWeatherAPI latitude longitude in
  ret (text_result ("Weather forecast for coordinates (" +:+ num_to_string latitude +:+
                    ", " +:+ num_to_string longitude +:+ "):" +:+ nl +:+ forecast)).

Definition getWeatherAlerts (args : value) : M tool_result :=
  let! validated := validateToolArgs WeatherAlertsSchema args in
  let state := arg_state validated in
  let! alerts := simulateAlertsAPI in
  ret (text_result ("Weather alerts for " +:+ state +:+ ":" +:+ nl +:+ alerts)).

(** [registerWeatherTools(server)]. *)
Definition registerWeatherTools (server : McpServer) : McpServer :=
  registerTool
    (ToolWithoutSchema "getWeatherAlerts"
       (mkDescriptor "Get Weather Alerts" "Get active weather alerts for a US state")
       getWeatherAlerts)
    (registerTool
       (ToolWithoutSchema "getWeatherForecast"
          (mkDescriptor "Get Weather Forecast"
             "Get weather forecast for a specific location using coordinates")
          getWeatherForecast)
       server).

End Weather.

(* ===================================================================== *)
(** * [server.ts]: the capability table                                   *)
(* ===================================================================== *)

(** ** Tools registered with an [inputSchema] ([server.ts]). *)
Module ServerTs.
Import JS Zod Schemas Mcp Weather.

Definition sayHello_schema : schema SayHelloArgs :=
  z_object1 "name" NameSchema mkSayHelloArgs.

Definition sayHello (args : SayHelloArgs) : M tool_result :=
  ret (text_result ("Hello, " +:+ arg_name args +:+ "!")).

(** [{ a: z.number(), b: z.number(), operation: z.enum([...]) }]. *)
Definition calculate_schema : schema CalculateArgs :=
  z_object3 "a" (z_number []) "b" (z_number [])
    "operation" (z_enum operations None)
    (fun a b operation => mkCalculateArgs operation a b).

(** The [switch (operation)] of the calculate tool: the [result], or the
    error thrown. *)
Definition calculate_result (operation : string) (a b : float) : M float :=
  if String.eqb operation "add" then ret (js_add a b)
  else if String.eqb operation "subtract" then ret (js_sub a b)
  else if String.eqb operation "multiply" then ret (js_mul a b)
  else if String.eqb operation "divide" then
    if js_strict_eq b 0%float
    then throw (new_Error "Division by zero is not allowed")
    else ret (js_div a b)
  else throw (new_Error ("Unknown operation: " +:+ operation +:+
                         ". Supported: add, subtract, multiply, divide")).

(** [`${a} ${operation} ${b} = ${result}`]. *)
Definition calculation_text (a : float) (operation : string) (b result : float)
  : string :=
  num_to_string a +:+ " " +:+ operation +:+ " " +:+ num_to_string b +:+ " = " +:+
  num_to_string result.

Definition calculate (args : CalculateArgs) : M tool_result :=
  let operation := arg_operation args in
  let a := arg_a args in
  let b := arg_b args in
  let! result := calculate_result operation a b in
  ret (text_result (calculation_text a operation b result)).

Definition createMCPServer : McpServer :=
  let server := new_McpServer "ts-template-mcp-server" "1.0.0" in
  let server :=
    registerTool
      (ToolWithSchema "sayHello"
         (mkDescriptor "Say Hello" "Says hello to a person by name")
         sayHello_schema sayHello)
      server in
  let server :=
    registerTool
      (ToolWithSchema "calculate"
         (mkDescriptor "Calculate"
            "Performs basic arithmetic calculations (add, subtract, multiply, divide)")
         calculate_schema calculate)
      server in
  registerWeatherTools server.

End ServerTs.

(** ** Tools validating their arguments with [validateToolArgs], and the
    two resources. *)
Module ServerZod.
Import JS Zod Schemas Mcp Weather.

Definition sayHello (args : value) : M tool_result :=
  let! validated := validateToolArgs SayHelloSchema args in
  let name := arg_name validated in
  ret (text_result ("Hello, " +:+ name +:+ "!")).

(** The schema has checked the operation and the divisor: the [switch] has
    no division guard of its own. *)
Definition calculate_result (operation : string) (a b : float) : M float :=
  if String.eqb operation "add" then ret (js_add a b)
  else if String.eqb operation "subtract" then ret (js_sub a b)
  else if String.eqb operation "multiply" then ret (js_mul a b)
  else if String.eqb operation "divide" then ret (js_div a b)
  else throw (new_Error ("Unknown operation: " +:+ operation +:+
                         ". Supported: add, subtract, multiply, divide")).

Definition calculate (args : value) : M tool_result :=
  let! validated := validateToolArgs CalculateSchema args in
  let operation := arg_operation validated in
  let a := arg_a validated in
  let b := arg_b validated in
  let! result := calculate_result operation a b in
  ret (text_result (ServerTs.calculation_text a operation b result)).

Definition tool_entry (name description parameters : string) : value :=
  VObject [("name", VString name);
           ("description", VString description);
           ("parameters", VString parameters)].

(** The object the server-info resource serialises; [created] is
    [new Date().toISOString()]. *)
Definition server_info (created : string) : value :=
  VObject
    [("name", VString "ts-template-mcp-server");
     ("version", VString "1.0.0");
     ("description",
      VString "A TypeScript MCP server template with Zod validation and plugin architecture");
     ("capabilities", VArray [VString "tools"; VString "resources"]);
     ("author", VString "Your Name");
     ("created", VString created);
     ("transport", VString "StreamableHTTP + STDIO");
     ("validation", VString "Zod schemas");
     ("tools",
      VArray
        [tool_entry "sayHello" "Says hello to a person by name" "{ name: string }";
         tool_entry "calculate" "Performs basic arithmetic calculations"
           "{ operation: 'add'|'subtract'|'multiply'|'divide', a: number, b: number }";
         tool_entry "getWeatherForecast" "Get weather forecast for coordinates"
           "{ latitude: number, longitude: number }";
         tool_entry "getWeatherAlerts" "Get weather alerts for US state"
           "{ state: string }"])].

Definition read_server_info (href : string) : M resource_result :=
  let! created := Date_toISOString in
  ret (mkResourceResult
         [mkResourceContent href "application/json"
            (JSON_stringify (server_info created))]).

Definition hello_message : string :=
  "Hello from the MCP TypeScript Server!" +:+ nl +:+ nl +:+
  "This is a resource that can be read by MCP clients." +:+ nl +:+ nl +:+
  "This server follows best practices from the official MCP TypeScript SDK." +:+
  nl +:+ nl +:+
  "Available tools:" +:+ nl +:+
  "- sayHello: { name: string }" +:+ nl +:+
  "- calculate: { operation: string, a: number, b: number }".

Definition read_hello_message (href : string) : M resource_result :=
  ret (mkResourceResult [mkResourceContent href "text/plain" hello_message]).

Definition createMCPServer : McpServer :=
  let server := new_McpServer "ts-template-mcp-server" "1.0.0" in
  let server :=
    registerTool
      (ToolWithoutSchema "sayHello"
         (mkDescriptor "Say Hello" "Says hello to a person by name")
         sayHello)
      server in
  let server :=
    registerTool
      (ToolWithoutSchema "calculate"
         (mkDescriptor "Calculate"
            "Performs basic arithmetic calculations (add, subtract, multiply, divide)")
         calculate)
      server in
  let server := registerWeatherTools server in
  let server :=
    registerResource
      (mkResource "server-info" "mcp://server-info"
         (mkDescriptor "Server Information" "Information about this MCP server")
         "application/json" read_server_info)
      server in
  registerResource
    (mkResource "hello-message" "mcp://hello-message"
       (mkDescriptor "Hello Message" "A simple hello message resource")
       "text/plain" read_hello_message)
    server.

End ServerZod.

(** ** Request handlers installed with [setRequestHandler]: the dispatch on
    the tool name and on the resource URI is the server's own. *)
Module ServerOfficial.
Import JS Zod Mcp.

Definition party : string := "🎉".
Definition rocket : string := "🚀".

Definition is_number (v : value) : bool :=
  match v with
  | VNumber _ => true
  | _ => false
  end.

Definition is_string (v : value) : bool :=
  match v with
  | VString _ => true
  | _ => false
  end.

(** The double behind a value whose [typeof] is ['number']. *)
Definition number_of (v : value) : float :=
  match v with
  | VNumber x => x
  | _ => PrimFloat.nan
  end.

Definition is_nullish (v : value) : bool :=
  match v with
  | VUndefined | VNull => true
  | _ => false
  end.

(** [switch (operation)]: a [case] is taken when [operation] is strictly
    equal to its string. *)
Definition is_str (v : value) (s : string) : bool :=
  match v with
  | VString s' => String.eqb s' s
  | _ => false
  end.

Definition calculate_result (operation : value) (a b : float) : M float :=
  if is_str operation "add" then ret (js_add a b)
  else if is_str operation "subtract" then ret (js_sub a b)
  else if is_str operation "multiply" then ret (js_mul a b)
  else if is_str operation "divide" then
    if js_strict_eq b 0%float
    then throw (new_Error "Division by zero is not allowed")
    else ret (js_div a b)
  else throw (new_Error ("Unknown operation: " +:+ ToString operation)).

(** [const { operation, a, b } = args] throws a [TypeError] on a nullish
    [args]. *)
Definition TypeError (message : string) : js_error :=
  mkError ClsError "TypeError" message None None [].

(** The handler of [tools/call]; [name] and [args] are
    [request.params.name] and [request.params.arguments]. *)
Definition tools_call (name args : value) : M tool_result :=
  if is_str name "sayHello" then
    if negb (truthy (prop args "name")) || negb (is_string (prop args "name"))
    then throw (new_Error "Name parameter is required and must be a string")
    else ret (text_result ("Hello, " +:+ ToString (prop args "name") +:+ "! " +:+ party))
  else if is_str name "calculate" then
    if is_nullish args
    then throw (TypeError ("Cannot destructure property 'operation' of 'args' as it is "
                           +:+ ToString args +:+ "."))
    else
      let operation := prop args "operation" in
      let a := prop args "a" in
      let b := prop args "b" in
      if negb (truthy operation) || negb (is_number a) || negb (is_number b)
      then throw (new_Error "Invalid parameters for calculation")
      else
        let! result := calculate_result operation (number_of a) (number_of b) in
        ret (text_result
               (ToString a +:+ " " +:+ ToString operation +:+ " " +:+ ToString b +:+
                " = " +:+ num_to_string result))
  else throw (new_Error ("Unknown tool: " +:+ ToString name)).

Definition string_property (description : string) : value :=
  VObject [("type", VString "string"); ("description", VString description)].

Definition number_property (description : string) : value :=
  VObject [("type", VString "number"); ("description", VString description)].

(** The handler of [tools/list]. *)
Definition tools_list_handler : M value :=
  ret (VObject
    [("tools", VArray
       [VObject
          [("name", VString "sayHello");
           ("description", VString "Says hello to a person by name");
           ("inputSchema", VObject
              [("type", VString "object");
               ("properties", VObject
                  [("name", string_property "The name of the person to greet")]);
               ("required", VArray [VString "name"])])];
        VObject
          [("name", VString "calculate");
           ("description", VString "Performs basic arithmetic calculations");
           ("inputSchema", VObject
              [("type", VString "object");
               ("properties", VObject
                  [("operation", VObject
                      [("type", VString "string");
                       ("enum", VArray [VString "add"; VString "subtract";
                                        VString "multiply"; VString "divide"]);
                       ("description", VString "The arithmetic operation to perform")]);
                   ("a", number_property "First number");
                   ("b", number_property "Second number")]);
               ("required", VArray [VString "operation"; VString "a"; VString "b"])])]])]).

(** The handler of [resources/list]. *)
Definition resources_list_handler : M value :=
  ret (VObject
    [("resources", VArray
       [VObject [("uri", VString "mcp://server-info");
                 ("name", VString "Server Information");
                 ("description", VString "Information about this MCP server");
                 ("mimeType", VString "application/json")];
        VObject [("uri", VString "mcp://hello-message");
                 ("name", VString "Hello Message");
                 ("description", VString "A simple hello message resource");
                 ("mimeType", VString "text/plain")]])]).

Definition server_info (created : string) : value :=
  VObject
    [("name", VString "ts-template-mcp-server");
     ("version", VString "1.0.0");
     ("description",
      VString "A TypeScript MCP server template with basic tools and resources");
     ("capabilities", VArray [VString "tools"; VString "resources"]);
     ("author", VString "Your Name");
     ("created", VString created)].

Definition hello_message : string :=
  "Hello from the MCP TypeScript Server! " +:+ rocket +:+ nl +:+ nl +:+
  "This is a resource that can be read by MCP clients.".

(** The handler of [resources/read]; [uri] is [request.params.uri]. *)
Definition resources_read (uri : value) : M resource_result :=
  if is_str uri "mcp://server-info" then
    let! created := Date_toISOString in
    ret (mkResourceResult
           [mkResourceContent (ToString uri) "application/json"
              (JSON_stringify (server_info created))])
  else if is_str uri "mcp://hello-message" then
    ret (mkResourceResult
           [mkResourceContent (ToString uri) "text/plain" hello_message])
  else throw (new_Error ("Unknown resource: " +:+ ToString uri)).

End ServerOfficial.

(* ===================================================================== *)
(** * [server.ts]: the [/mcp] route and its session map                   *)
(* ===================================================================== *)

Module Route.
Import JS Mcp ErrorHandler.

(** [new StreamableHTTPServerTransport({ sessionIdGenerator: () => sessionId })]:
    an object with an identity of its own (the allocation number) that
    remembers the session it was made for. *)
Record transport : Type := mkTransport {
  transport_id : nat;
  transport_session : string
}.

(** What [startServer] keeps for the lifetime of the process. *)
Record app_state : Type := mkAppState {
  mcpServer : McpServer;                 (* const mcpServer = createMCPServer() *)
  sessions : gmap string transport;      (* const sessions = new Map() *)
  allocated : nat;                       (* transports created so far *)
  log : list log_entry                   (* fastify.log, latest first *)
}.

(** What [startServer] sets up for the route: the server built by
    [createMCPServer] (given here: the variants of [server.ts] build
    different ones) and an empty session map. *)
Definition startServer (server : McpServer) : app_state := mkAppState server ∅ 0 [].

(** An inbound request: the [mcp-session-id] header and the body. *)
Record request : Type := mkRequest {
  mcp_session_id : option string;
  body : value
}.

(** What the collaborators do during one request: the clock and the random
    source behind a generated identifier, whether [mcpServer.connect]
    throws, and what [transport.handleRequest] does to the raw reply (it
    may write a response, and it may throw, before or after writing). *)
Record environment : Type := mkEnv {
  Date_now : Z;
  random36 : string;           (* Math.random().toString(36).substr(2, 9) *)
  connect_throws : option thrown;
  transport_writes : option (Z * value);
  transport_throws : option thrown
}.

(** [`session-${Date.now()}-${Math.random().toString(36).substr(2, 9)}`]. *)
Definition generated_id (env : environment) : string :=
  "session-" +:+ int_to_string (Date_now env) +:+ "-" +:+ random36 env.

(** [request.headers['mcp-session-id'] || generated]: an absent or empty
    header is falsy. *)
Definition session_id_of (req : request) (env : environment) : string :=
  match mcp_session_id req with
  | Some (String c rest) => String c rest
  | _ => generated_id env
  end.

(** Lines 144-162 of the route: look the session up, create and connect a
    transport when there is none.  Returns the key and the transport. *)
Definition resolveOrCreate (st : app_state) (req : request) (env : environment)
  : app_state * outcome (string * transport) :=
  let sessionId := session_id_of req env in
  match sessions st !! sessionId with
  | Some transport => (st, Returned (sessionId, transport))
  | None =>
      let transport := mkTransport (allocated st) sessionId in
      match connect_throws env with
      | Some error =>
          (mkAppState (mcpServer st) (sessions st) (S (allocated st)) (log st),
           Threw error)
      | None =>
          (mkAppState (mcpServer st) (<[sessionId := transport]> (sessions st))
                 (S (allocated st))
                 (LogInfo ("Created new MCP session: " +:+ sessionId) :: log st),
           Returned (sessionId, transport))
      end
  end.

(** [await transport.handleRequest(request.raw, reply.raw, request.body)]. *)
Definition handleRequest (env : environment) (rp : reply) : reply * outcome unit :=
  let rp' := match transport_writes env with
             | Some (code, response) => send code response
             | None => rp
             end in
  (rp', match transport_throws env with
        | Some error => Threw error
        | None => Returned tt
        end).

(** The [try] block. *)
Definition mcp_try (st : app_state) (req : request) (env : environment) (rp : reply)
  : app_state * reply * outcome unit :=
  match resolveOrCreate st req env with
  | (st', Returned (_, transport)) =>
      let '(rp', o) := handleRequest env rp in (st', rp', o)
  | (st', Threw error) => (st', rp, Threw error)
  end.

(** [error instanceof Error ? error.message : 'Unknown error']. *)
Definition message_of (error : thrown) : string :=
  match error with
  | ThrownError e => error_message e
  | ThrownValue _ => "Unknown error"
  end.

Definition internal_error_body (error : thrown) : value :=
  VObject [("error", VString "Internal MCP server error");
           ("message", VString (message_of error))].

(** The [catch] block. *)
Definition mcp_catch (st : app_state) (rp : reply) (error : thrown) : app_state * reply :=
  let st' := mkAppState (mcpServer st) (sessions st) (allocated st)
               (LogError "MCP request error:" error :: log st) in
  if sent rp then (st', rp) else (st', send 500 (internal_error_body error)).

(** [fastify.all('/mcp', async (request, reply) => { try ... catch ... })]:
    the outcome is what the handler's promise settles to. *)
Definition mcp_route (st : app_state) (req : request) (env : environment) (rp : reply)
  : app_state * reply * outcome unit :=
  match mcp_try st req env rp with
  | (st', rp', Returned _) => (st', rp', Returned tt)
  | (st', rp', Threw error) =>
      let '(st'', rp'') := mcp_catch st' rp' error in (st'', rp'', Returned tt)
  end.


(** The [onClose] hook: [sessions.clear()]. *)
Definition onClose (st : app_state) : app_state :=
  mkAppState (mcpServer st) ∅ (allocated st)
    (LogInfo "Cleaning up MCP sessions..." :: log st).

(** The server after a sequence of requests, each with a fresh reply. *)
Fixpoint serve (st : app_state) (inbound : list (request * environment)) : app_state :=
  match inbound with
  | [] => st
  | (req, env) :: rest => serve (mcp_route st req env fresh_reply).1.1 rest
  end.

(** ** The route between its [await]s.  The handler is [async]: it runs up
    to [await mcpServer.connect(transport)] (when it creates a transport),
    then up to [await transport.handleRequest(...)], then to its end; the
    event loop may run other handlers in between. *)
Inductive suspended : Type :=
| AwaitConnect (sessionId : string) (t : transport)
| AwaitHandle (t : transport)
| Settled.

(** A request in flight: its collaborators, its reply, where it waits. *)
Record flight : Type := mkFlight {
  flight_env : environment;
  flight_reply : reply;
  flight_at : suspended
}.

(** From the arrival of the request to the first [await]. *)
Definition route_start (st : app_state) (req : request) (env : environment)
    (rp : reply) : app_state * flight :=
  let sessionId := session_id_of req env in
  match sessions st !! sessionId with
  | Some transport => (st, mkFlight env rp (AwaitHandle transport))
  | None =>
      (mkAppState (mcpServer st) (sessions st) (S (allocated st)) (log st),
       mkFlight env rp
         (AwaitConnect sessionId (mkTransport (allocated st) sessionId)))
  end.

(** From one [await] to the next, or to the end of the handler. *)
Definition route_resume (st : app_state) (f : flight) : app_state * flight :=
  let env := flight_env f in
  match flight_at f with
  | AwaitConnect sessionId transport =>
      match connect_throws env with
      | Some error =>
          let '(st', rp') := mcp_catch st (flight_reply f) error in
          (st', mkFlight env rp' Settled)
      | None =>
          (mkAppState (mcpServer st) (<[sessionId := transport]> (sessions st))
             (allocated st)
             (LogInfo ("Created new MCP session: " +:+ sessionId) :: log st),
           mkFlight env (flight_reply f) (AwaitHandle transport))
      end
  | AwaitHandle transport =>
      match handleRequest env (flight_reply f) with
      | (rp', Returned _) => (st, mkFlight env rp' Settled)
      | (rp', Threw error) =>
          let '(st', rp'') := mcp_catch st rp' error in
          (st', mkFlight env rp'' Settled)
      end
  | Settled => (st, f)
  end.

(** What the event loop does next: take a new request, or resume the
    request in flight number [i]. *)
Inductive event : Type :=
| Arrive (req : request) (env : environment)
| Resume (i : nat).

Record system : Type := mkSystem {
  sys_app : app_state;
  sys_flights : list flight
}.

Definition sys_step (s : system) (ev : event) : system :=
  match ev with
  | Arrive req env =>
      let '(st, f) := route_start (sys_app s) req env fresh_reply in
      mkSystem st (sys_flights s ++ [f])
  | Resume i =>
      match sys_flights s !! i with
      | Some f =>
          let '(st, f') := route_resume (sys_app s) f in
          mkSystem st (<[i := f']> (sys_flights s))
      | None => s
      end
  end.

Definition sys_run (s : system) (schedule : list event) : system :=
  fold_left sys_step schedule s.

(** Every stored transport was allocated earlier and was made for the key
    it is stored under. *)
Definition sessions_wf (st : app_state) : Prop :=
  ∀ k t, sessions st !! k = Some t →
         transport_session t = k ∧ (transport_id t < allocated st)%nat.

End Route.

(* ===================================================================== *)
(** * The vocabulary of the properties                                    *)
(* ===================================================================== *)

Module Vocabulary.
Import JS Zod Schemas Mcp ErrorHandler Route.

(** The error [validateToolArgs] throws for a list of issues. *)
Definition validation_failure (issues : list issue) : thrown :=
  ThrownError
    (new_Error ("Validation failed: " +:+ join ", " (map describe_issue issues))).


Definition within (lo hi x : float) : Prop :=
  js_le lo x = true ∧ js_le x hi = true.


(** A computation whose outcome is the same in every world and that leaves
    the world as it found it: it reads neither the clock nor the random
    source, and has no effect. *)
Definition world_independent {A} (c : M A) : Prop :=
  ∃ o : outcome A, ∀ w : world, c w = (w, o).


(** How the serialised descriptor of the server starts. *)
Definition server_info_head : string :=
  "{" +:+ nl +:+
  "  " +:+ dq +:+ "name" +:+ dq +:+ ": " +:+ dq +:+ "ts-template-mcp-server" +:+ dq +:+
  "," +:+ nl +:+
  "  " +:+ dq +:+ "version" +:+ dq +:+ ": " +:+ dq +:+ "1.0.0" +:+ dq +:+ "," +:+ nl.

(** A descriptor with the two fields the clients rely on. *)
Definition names_the_server (info : value) : Prop :=
  prop info "name" = VString "ts-template-mcp-server"
  ∧ prop info "version" = VString "1.0.0".

(** The envelope of a JSON resource. *)
Definition json_envelope (uri : string) (info : value) : resource_result :=
  mkResourceResult [mkResourceContent uri "application/json" (JSON_stringify info)].

(** ** Inputs of the worked examples *)

(** A world for the worked examples: the random source always draws [0]. *)
Definition quiet_world : world :=
  mkWorld (fun _ => 0%float) 0 [] "1/1/2025, 10:00:00 AM" "2025-01-01T10:00:00.000Z".


(** [{ latitude, longitude }]. *)
Definition coordinates (latitude longitude : float) : list (string * value) :=
  [("latitude", VNumber latitude); ("longitude", VNumber longitude)].

(** A request without session header, and the server just started. *)
Definition anonymous : request := mkRequest None VNull.

Definition started : app_state := startServer ServerTs.createMCPServer.


(** The identifier is generated twice at the same millisecond with the
    same random suffix. *)
Definition same_instant : environment :=
  mkEnv 1700000000000 "k3j9x2m1q" None None None.

(** A connection that cannot be established. *)
Definition connect_fails : environment :=
  mkEnv 1700000000000 "k3j9x2m1q"
    (Some (ThrownError (new_Error "connect failed"))) None None.

(** The clock advances between two calls without identifier. *)
Definition a_moment_later : environment :=
  mkEnv 1700000000001 "k3j9x2m1q" None None None.

End Vocabulary.

(* ===================================================================== *)
(** * [plugins/weatherPlugin.ts]: the REST routes                         *)
(* ===================================================================== *)

Module Plugins.
Import JS Zod Schemas Mcp Weather ErrorHandler Route.







End Plugins.

(* ===================================================================== *)
(** * [server.ts]: the [/health] endpoint                                 *)
(* ===================================================================== *)

Module Endpoints.
Import JS Mcp ErrorHandler Route.


End Endpoints.

(* ===================================================================== *)
(** * The server whose tools check their arguments by hand                *)
(* ===================================================================== *)

(** [registerTool] without a schema: the callbacks destructure the raw
    arguments and test them with [typeof]. *)
Module ServerCompat.
Import JS Zod Mcp ServerOfficial.

Definition sayHello (args : value) : M tool_result :=
  if is_nullish args
  then throw (TypeError ("Cannot destructure property 'name' of 'args' as it is "
                         +:+ ToString args +:+ "."))
  else
    let name := prop args "name" in
    if negb (truthy name) || negb (is_string name)
    then throw (new_Error "Name parameter is required and must be a string")
    else ret (text_result ("Hello, " +:+ ToString name +:+ "! " +:+ party)).

Definition calculate_result (operation : value) (a b : float) : M float :=
  if is_str operation "add" then ret (js_add a b)
  else if is_str operation "subtract" then ret (js_sub a b)
  else if is_str operation "multiply" then ret (js_mul a b)
  else if is_str operation "divide" then
    if js_strict_eq b 0%float
    then throw (new_Error "Division by zero is not allowed")
    else ret (js_div a b)
  else throw (new_Error ("Unknown operation: " +:+ ToString operation +:+
                         ". Supported: add, subtract, multiply, divide")).

Definition calculate (args : value) : M tool_result :=
  if is_nullish args
  then throw (TypeError ("Cannot destructure property 'operation' of 'args' as it is "
                         +:+ ToString args +:+ "."))
  else
    let operation := prop args "operation" in
    let a := prop args "a" in
    let b := prop args "b" in
    if negb (truthy operation) || negb (is_number a) || negb (is_number b)
    then throw (new_Error
      "Invalid parameters for calculation. Need operation (string), a (number), b (number)")
    else
      let! result := calculate_result operation (number_of a) (number_of b) in
      ret (text_result
             (ToString a +:+ " " +:+ ToString operation +:+ " " +:+ ToString b +:+
              " = " +:+ num_to_string result)).

End ServerCompat.

(* ===================================================================== *)
(** * The prompts of the server that installs request handlers           *)
(* ===================================================================== *)

Module Prompts.
Import JS Zod Mcp ServerOfficial.

(** [x || dflt]. *)
Definition or_else (x dflt : value) : value := if truthy x then x else dflt.

Definition prompt_argument (name description : string) (required : bool) : value :=
  VObject [("name", VString name); ("description", VString description);
           ("required", VBool required)].

(** The handler of [prompts/list]. *)
Definition prompts_list_handler : M value :=
  ret (VObject
    [("prompts", VArray
       [VObject
          [("name", VString "greeting-prompt");
           ("description", VString "Generate a personalized greeting");
           ("arguments", VArray
              [prompt_argument "name" "The name of the person to greet" true;
               prompt_argument "style"
                 "The style of greeting (formal, casual, enthusiastic)" false])]])]).

Definition greeting (style personName : value) : string :=
  if is_str style "formal"
  then "Good day, " +:+ ToString personName +:+ ". I hope you are well."
  else if is_str style "enthusiastic"
  then "Hey there, " +:+ ToString personName +:+ "! " +:+ party +:+
       " So excited to meet you!"
  else "Hi " +:+ ToString personName +:+ "! How's it going?".

(** [{ description, messages: [{ role: 'user', content: { type: 'text', text } }] }]. *)
Definition prompt_result (description text : string) : value :=
  VObject [("description", VString description);
           ("messages", VArray
              [VObject [("role", VString "user");
                        ("content", VObject [("type", VString "text");
                                             ("text", VString text)])]])].

(** The handler of [prompts/get]; [name] and [args] are
    [request.params.name] and [request.params.arguments]. *)
Definition prompts_get (name args : value) : M value :=
  if is_str name "greeting-prompt" then
    let personName := or_else (prop args "name") (VString "there") in
    let style := or_else (prop args "style") (VString "casual") in
    ret (prompt_result
           ("A " +:+ ToString style +:+ " greeting for " +:+ ToString personName)
           (greeting style personName))
  else throw (new_Error ("Unknown prompt: " +:+ ToString name)).

End Prompts.

(* ===================================================================== *)
(** * More vocabulary                                                     *)
(* ===================================================================== *)

Module Terms.
Import JS Zod Schemas Mcp ErrorHandler Route.

(** The values found under [field] in the entries of a listing
    ([{ tools: [...] }], [{ resources: [...] }], [{ prompts: [...] }]). *)
Definition listed (collection field : string) (listing : value) : list value :=
  match prop listing collection with
  | VArray items => map (fun item => prop item field) items
  | _ => []
  end.

(** The entries of a listing. *)
Definition entries (collection : string) (listing : value) : list value :=
  match prop listing collection with
  | VArray items => items
  | _ => []
  end.

(** The log line that announces a new session. *)
Definition announces_session (entry : log_entry) : bool :=
  match entry with
  | LogInfo message => String.prefix "Created new MCP session: " message
  | LogError _ _ => false
  end.

Definition sessions_announced (st : app_state) : nat :=
  List.length (List.filter announces_session (log st)).

(** A request in flight holds a transport that was allocated earlier; one
    that awaits [connect] holds a transport made for the key it will be
    stored under. *)
Definition flight_wf (st : app_state) (f : flight) : Prop :=
  match flight_at f with
  | AwaitConnect sessionId t =>
      transport_session t = sessionId ∧ (transport_id t < allocated st)%nat
  | AwaitHandle t => True
  | Settled => True
  end.

Definition system_wf (s : system) : Prop :=
  sessions_wf (sys_app s) ∧ Forall (flight_wf (sys_app s)) (sys_flights s).

(** A request that carries the session identifier [sid]. *)
Definition with_session (sid : string) : request := mkRequest (Some sid) VNull.


(** Collaborators that neither write nor throw. *)
Definition silent (now : Z) (suffix : string) : environment :=
  mkEnv now suffix None None None.

End Terms.

(* ===================================================================== *)
(** * Properties                                                          *)
(* ===================================================================== *)

(** ** The built-ins on examples *)

Section Examples.
Import JS Zod Schemas Mcp Weather Vocabulary.

Example num_to_string_examples :
  map num_to_string
    [2; 0.1; js_add 0.1 0.2; js_div 10 3; 1e21; 123456789012345680000; 1e-7;
     0.000001; -1.5; js_div 0 0; js_div 1 0; (-0); 5e-324;
     1.7976931348623157e308]%float
  = ["2"; "0.1"; "0.30000000000000004"; "3.3333333333333335"; "1e+21";
     "123456789012345680000"; "1e-7"; "0.000001"; "-1.5"; "NaN"; "Infinity"; "0";
     "5e-324"; "1.7976931348623157e+308"].
Proof. vm_compute. reflexivity. Qed.

Example toFixed_examples :
  map (toFixed 4) [40.7128; -74.006; 0; 0.00005; -0.00001; 90; 1e21]%float
  = ["40.7128"; "-74.0060"; "0.0000"; "0.0001"; "-0.0000"; "90.0000"; "1e+21"].
Proof. vm_compute. reflexivity. Qed.

Example round_examples :
  map round_to_string [0.5; 1.5; 2.5; -0.5; -2.5; 35.3564; 0.49999999999999994]%float
  = ["1"; "2"; "3"; "0"; "-2"; "35"; "0"].
Proof. vm_compute. reflexivity. Qed.

Example floor_examples :
  map floor_Z [0.5; 3.999; -0.5; 4; -4.5]%float
  = [Some 0; Some 3; Some (-1); Some 4; Some (-5)]%Z.
Proof. vm_compute. reflexivity. Qed.

Example JSON_stringify_example :
  JSON_stringify (VObject [("a", VArray [VNumber 1.5; VUndefined]);
                           ("b", VUndefined);
                           ("c", VString "x")])
  = "{" +:+ nl +:+
    "  " +:+ dq +:+ "a" +:+ dq +:+ ": [" +:+ nl +:+
    "    1.5," +:+ nl +:+
    "    null" +:+ nl +:+
    "  ]," +:+ nl +:+
    "  " +:+ dq +:+ "c" +:+ dq +:+ ": " +:+ dq +:+ "x" +:+ dq +:+ nl +:+
    "}".
Proof. vm_compute. reflexivity. Qed.

(** On small integers the four operations are exact. *)
Example exact_on_small_integers :
  (∀ p, exact_value (js_add 2 3) = Some p →
        frac_eq p (frac_add (2, 1) (3, 1))%Z)
  ∧ (∀ p, exact_value (js_sub 7 10) = Some p →
          frac_eq p (frac_sub (7, 1) (10, 1))%Z)
  ∧ (∀ p, exact_value (js_mul 15 7) = Some p →
          frac_eq p (frac_mul (15, 1) (7, 1))%Z)
  ∧ (∀ p, exact_value (js_div 10 4) = Some p →
          frac_eq p (frac_div (10, 1) (4, 1))%Z).
Proof. repeat split; intros p [= <-]; vm_compute; reflexivity. Qed.

Example sayHello_example :
  ServerZod.sayHello (VObject [("name", VString "Ada")]) quiet_world
  = (quiet_world, Returned (text_result "Hello, Ada!")).
Proof. vm_compute. reflexivity. Qed.

Example forecast_example :
  (getWeatherForecast (VObject (coordinates 40.7128 (-74.006))) quiet_world).2
  = Returned (text_result
      ("Weather forecast for coordinates (40.7128, -74.006):" +:+ nl +:+
       icon_conditions +:+ "  Current Conditions: Sunny" +:+ nl +:+
       icon_temperature +:+ "  Temperature: 35" +:+ degree +:+ "C" +:+ nl +:+
       "        Location: 40.7128, -74.0060" +:+ nl +:+
       icon_updated +:+ " Updated: 1/1/2025, 10:00:00 AM")).
Proof. vm_compute. reflexivity. Qed.

Example validation_messages :
  (ServerZod.calculate (VObject [("operation", VNumber 1); ("b", VString "x")])
     quiet_world).2
  = Threw (ThrownError (new_Error
      ("Validation failed: operation: Operation must be one of: add, subtract, multiply, divide, "
       +:+ "a: Required, b: Expected number, received string"))).
Proof. vm_compute. reflexivity. Qed.

End Examples.

(** ** Comparisons of doubles *)

Section FloatFacts.
Import JS.

Lemma compare_cont_antisym (p q : positive) :
  Pos.compare_cont Eq q p = CompOpp (Pos.compare_cont Eq p q).
Proof. apply (Pos.compare_antisym p q). Qed.

Lemma SFcompare_antisym (x y : spec_float) :
  SFcompare y x = option_map CompOpp (SFcompare x y).
Proof.
  destruct x as [sx|sx| |sx mx ex], y as [sy|sy| |sy my ey]; cbn;
    try reflexivity;
    try (destruct sx; reflexivity);
    try (destruct sy; reflexivity);
    try (destruct sx, sy; reflexivity).
  destruct sx, sy; cbn; try reflexivity;
    rewrite (Z.compare_antisym ex ey);
    destruct (ex ?= ey)%Z; cbn; try reflexivity;
    rewrite (compare_cont_antisym mx my);
    destruct (Pos.compare_cont Eq mx my); reflexivity.
Qed.

Lemma SFcompare_refl (x : spec_float) :
  x ≠ S754_nan → SFcompare x x = Some Eq.
Proof.
  destruct x as [s|s| |s m e]; cbn; intros Hx; try congruence.
  - destruct s; reflexivity.
  - rewrite Z.compare_refl.
    change (Pos.compare_cont Eq m m) with (Pos.compare m m).
    rewrite Pos.compare_refl. destruct s; reflexivity.
Qed.

Lemma SFcompare_nan_l (y : spec_float) : SFcompare S754_nan y = None.
Proof. reflexivity. Qed.

Lemma SFcompare_nan_r (x : spec_float) : SFcompare x S754_nan = None.
Proof. destruct x; reflexivity. Qed.

(** [a <= b] excludes [b < a]. *)
Lemma js_le_not_gt (a b : float) : js_le a b = true → js_lt b a = false.
Proof.
  unfold js_le, js_lt. rewrite FloatAxioms.leb_spec, FloatAxioms.ltb_spec. unfold SFleb, SFltb.
  rewrite (SFcompare_antisym (Prim2SF a) (Prim2SF b)).
  destruct (SFcompare (Prim2SF a) (Prim2SF b)) as [[]|]; cbn; congruence.
Qed.

Lemma not_nan_spec (a : float) : Prim2SF a ≠ S754_nan → js_is_nan a = false.
Proof.
  intros Ha. unfold js_is_nan, PrimFloat.is_nan. rewrite FloatAxioms.eqb_spec. unfold SFeqb.
  rewrite (SFcompare_refl _ Ha). reflexivity.
Qed.

(** A number that compares with another one is not [NaN]. *)
Lemma js_le_not_nan_l (a b : float) : js_le a b = true → js_is_nan a = false.
Proof.
  unfold js_le. rewrite FloatAxioms.leb_spec. unfold SFleb. intros H.
  apply not_nan_spec. intros Ha. rewrite Ha, SFcompare_nan_l in H. discriminate.
Qed.

Lemma js_le_not_nan_r (a b : float) : js_le a b = true → js_is_nan b = false.
Proof.
  unfold js_le. rewrite FloatAxioms.leb_spec. unfold SFleb. intros H.
  apply not_nan_spec. intros Hb. rewrite Hb, SFcompare_nan_r in H. discriminate.
Qed.


End FloatFacts.

(** ** Validation *)

Section Validation.
Import JS Zod Schemas Mcp Weather Vocabulary.

Lemma accepts_Valid {T} (s : schema T) (args : value) :
  accepts s args = true → ∃ a, s [] args = Valid a.
Proof. unfold accepts. destruct (s [] args); eauto; discriminate. Qed.


(** A rejected argument set: the error lists the issues, and the world is
    the one before the call. *)
Lemma validateToolArgs_rejected {T} (s : schema T) (args : value) (w : world) :
  accepts s args = false →
  validateToolArgs s args w = (w, Threw (validation_failure (issues_of (s [] args)))).
Proof.
  unfold accepts, validateToolArgs, parse.
  destruct (s [] args); intros H; try discriminate; reflexivity.
Qed.



Lemma number_in_range (lo hi x : float) (msg1 msg2 : string) (path : list string) :
  within lo hi x →
  z_number [NumMin lo msg1; NumMax hi msg2] path (VNumber x) = Valid x.
Proof.
  intros [Hlo Hhi]. unfold z_number.
  rewrite (js_le_not_nan_r lo x Hlo). cbn [flat_map number_check_fails].
  change (js_gt x hi) with (js_lt hi x).
  rewrite (js_le_not_gt lo x Hlo), (js_le_not_gt x hi Hhi). reflexivity.
Qed.


Lemma ap_Valid_inv {A B} (pf : parsed (A → B)) (pa : parsed A) (b : B) :
  ap pf pa = Valid b → ∃ f a, pf = Valid f ∧ pa = Valid a.
Proof. destruct pf, pa; cbn; intros H; try discriminate; eauto. Qed.

Lemma forecast_args_accepted (fields : list (string * value)) (latitude longitude : float) :
  get "latitude" fields = VNumber latitude →
  get "longitude" fields = VNumber longitude →
  within (-90) 90 latitude → within (-180) 180 longitude →
  WeatherForecastSchema [] (VObject fields)
  = Valid (mkWeatherForecastArgs latitude longitude).
Proof.
  intros Hlat Hlon Hin1 Hin2.
  unfold WeatherForecastSchema, z_object2, field, LatitudeSchema, LongitudeSchema.
  rewrite Hlat, Hlon.
  rewrite (number_in_range _ _ _ _ _ _ Hin1), (number_in_range _ _ _ _ _ _ Hin2).
  reflexivity.
Qed.


End Validation.

(** ** Tool calls with invalid arguments *)

Section InvalidArguments.
Import JS Zod Schemas Mcp Weather ErrorHandler Route Vocabulary.





End InvalidArguments.

(** ** The greeter and the calculator *)

Section Tools.
Import JS Zod Schemas Mcp Weather ErrorHandler Route Constants Vocabulary.

Lemma world_independent_ret {A} (a : A) : world_independent (ret a).
Proof. exists (Returned a). reflexivity. Qed.













Lemma z_enum_Valid (options : list string) (errorMap : option string)
    (path : list string) (v : value) (s : string) :
  z_enum options errorMap path v = Valid s → In s options.
Proof.
  unfold z_enum. destruct v; try discriminate.
  destruct (existsb (String.eqb s0) options) eqn:E; [|discriminate].
  intros [= <-]. apply List.existsb_exists in E as (x & Hx & Heq).
  apply String.eqb_eq in Heq. subst x. exact Hx.
Qed.











End Tools.

(** ** Resources and listings *)

Section Listings.
Import JS Zod Schemas Mcp Weather ErrorHandler Route Constants Vocabulary.

(** C7.  Reading the resource "mcp://server-info" succeeds: the resource
    is registered under that URI, and its read callback (like the
    [resources/read] handler of the server that installs its own
    handlers) returns an envelope with one JSON content, the
    serialisation of a descriptor that has the fields [name]
    ("ts-template-mcp-server") and [version] ("1.0.0"); they are the
    first two fields of the text. *)
Theorem server_info_resource (w : world) :
  (∃ r : registered_resource,
     find_resource MCP_URIS.SERVER_INFO ServerZod.createMCPServer = Some r
     ∧ readCallback r MCP_URIS.SERVER_INFO w
       = (w, Returned (json_envelope "mcp://server-info"
                         (ServerZod.server_info (clock_iso w)))))
  ∧ ServerOfficial.resources_read (VString MCP_URIS.SERVER_INFO) w
    = (w, Returned (json_envelope "mcp://server-info"
                      (ServerOfficial.server_info (clock_iso w))))
  ∧ names_the_server (ServerZod.server_info (clock_iso w))
  ∧ names_the_server (ServerOfficial.server_info (clock_iso w))
  ∧ String.prefix server_info_head
      (JSON_stringify (ServerZod.server_info (clock_iso w))) = true
  ∧ String.prefix server_info_head
      (JSON_stringify (ServerOfficial.server_info (clock_iso w))) = true.
Proof.
  split; [|split; [|split; [|split; [|split]]]].
  - eexists. split; reflexivity.
  - reflexivity.
  - split; reflexivity.
  - split; reflexivity.
  - generalize (clock_iso w). intros created. vm_compute. reflexivity.
  - generalize (clock_iso w). intros created. vm_compute. reflexivity.
Qed.

(** The server whose tools carry an [inputSchema] registers tools only. *)
Remark server_ts_registers_no_resource :
  resources ServerTs.createMCPServer = []
  ∧ find_resource MCP_URIS.SERVER_INFO ServerTs.createMCPServer = None.
Proof. split; reflexivity. Qed.

Lemma mcp_route_keeps_server (st : app_state) (req : request) (env : environment)
    (rp : reply) :
  mcpServer (mcp_route st req env rp).1.1 = mcpServer st.
Proof.
  unfold mcp_route, mcp_try, mcp_catch, resolveOrCreate, handleRequest.
  destruct (sessions st !! session_id_of req env);
    destruct (connect_throws env); destruct (transport_throws env);
    try destruct (sent _); reflexivity.
Qed.

Lemma serve_keeps_server (inbound : list (request * environment)) (st : app_state) :
  mcpServer (serve st inbound) = mcpServer st.
Proof.
  revert st. induction inbound as [|[req env] rest IH]; intros st; [reflexivity|].
  cbn [serve]. rewrite IH. apply mcp_route_keeps_server.
Qed.

(** The route, run from one [await] to the next without other handlers in
    between, is the route run in one piece. *)
Lemma route_steps_refine (st : app_state) (req : request) (env : environment)
    (rp : reply) :
  let '(st1, f1) := route_start st req env rp in
  let '(st2, f2) := route_resume st1 f1 in
  let '(st3, f3) := route_resume st2 f2 in
  (st3, flight_reply f3) = (mcp_route st req env rp).1 ∧ flight_at f3 = Settled.
Proof.
  unfold route_start, route_resume, mcp_route, mcp_try, mcp_catch, resolveOrCreate,
    handleRequest.
  destruct (sessions st !! session_id_of req env); cbn;
    destruct (connect_throws env); cbn;
    destruct (transport_throws env); cbn;
    try destruct (sent _); cbn; split; reflexivity.
Qed.

Lemma route_start_keeps_server (st : app_state) (req : request) (env : environment)
    (rp : reply) :
  mcpServer (route_start st req env rp).1 = mcpServer st.
Proof.
  unfold route_start. destruct (sessions st !! session_id_of req env); reflexivity.
Qed.

Lemma route_resume_keeps_server (st : app_state) (f : flight) :
  mcpServer (route_resume st f).1 = mcpServer st.
Proof.
  unfold route_resume, mcp_catch, handleRequest.
  destruct (flight_at f); cbn;
    try destruct (connect_throws (flight_env f)); cbn;
    try destruct (transport_throws (flight_env f)); cbn;
    try destruct (sent _); reflexivity.
Qed.

Lemma sys_step_keeps_server (s : system) (ev : event) :
  mcpServer (sys_app (sys_step s ev)) = mcpServer (sys_app s).
Proof.
  destruct ev as [req env|i]; cbn.
  - pose proof (route_start_keeps_server (sys_app s) req env fresh_reply) as H.
    destruct (route_start (sys_app s) req env fresh_reply). exact H.
  - destruct (sys_flights s !! i) as [f|]; [|reflexivity].
    pose proof (route_resume_keeps_server (sys_app s) f) as H.
    destruct (route_resume (sys_app s) f). exact H.
Qed.

Lemma sys_run_keeps_server (schedule : list event) (s : system) :
  mcpServer (sys_app (sys_run s schedule)) = mcpServer (sys_app s).
Proof.
  revert s. induction schedule as [|ev rest IH]; intros s; [reflexivity|].
  cbn [sys_run fold_left]. change (fold_left sys_step rest (sys_step s ev))
    with (sys_run (sys_step s ev) rest).
  rewrite IH. apply sys_step_keeps_server.
Qed.

(** C8.  [tools/list] and [resources/list] are idempotent.  The capability
    table is built once, by [createMCPServer], and nothing that serves a
    request changes it: after any sequence of requests, on any sessions,
    and after any further sequence, and also after any interleaving of the
    steps of any number of requests in flight, the listings are the ones
    of the table built at startup (the four tools; the two resources where
    resources are registered).  The listing handlers of the server that
    installs its own handlers return the same value in every world and
    change nothing. *)
Theorem listings_are_stable (server : McpServer)
    (before between : list (request * environment)) (schedule : list event) :
  tools_list (mcpServer (serve (startServer server) before)) = tools_list server
  ∧ resources_list (mcpServer (serve (startServer server) before))
    = resources_list server
  ∧ tools_list (mcpServer (serve (serve (startServer server) before) between))
    = tools_list (mcpServer (serve (startServer server) before))
  ∧ resources_list (mcpServer (serve (serve (startServer server) before) between))
    = resources_list (mcpServer (serve (startServer server) before))
  ∧ tools_list (mcpServer (sys_app (sys_run (mkSystem (startServer server) [])
                                      schedule)))
    = tools_list server
  ∧ resources_list (mcpServer (sys_app (sys_run (mkSystem (startServer server) [])
                                          schedule)))
    = resources_list server
  ∧ mcpServer (onClose (serve (startServer server) before)) = server
  ∧ map fst (tools_list ServerTs.createMCPServer)
    = ["sayHello"; "calculate"; "getWeatherForecast"; "getWeatherAlerts"]
  ∧ map fst (tools_list ServerZod.createMCPServer)
    = ["sayHello"; "calculate"; "getWeatherForecast"; "getWeatherAlerts"]
  ∧ map (fun r => r.1.1.1) (resources_list ServerZod.createMCPServer)
    = [MCP_URIS.SERVER_INFO; MCP_URIS.HELLO_MESSAGE]
  ∧ world_independent ServerOfficial.tools_list_handler
  ∧ world_independent ServerOfficial.resources_list_handler.
Proof.
  rewrite !sys_run_keeps_server, !serve_keeps_server.
  cbn [startServer mcpServer onClose sys_app].
  rewrite !serve_keeps_server. cbn [startServer mcpServer].
  repeat split; apply world_independent_ret.
Qed.

End Listings.

(** ** The route: failures and sessions *)

Section RouteFacts.
Import JS Mcp ErrorHandler Route Constants Vocabulary.





End RouteFacts.

Section Sessions.
Import JS Mcp ErrorHandler Route Vocabulary.

Lemma started_wf (server : McpServer) : sessions_wf (startServer server).
Proof. intros k t H. cbn in H. rewrite lookup_empty in H. discriminate. Qed.

(** Resolving a session keeps the session map well formed. *)
Lemma resolveOrCreate_wf (st : app_state) (req : request) (env : environment) :
  sessions_wf st → sessions_wf (resolveOrCreate st req env).1.
Proof.
  intros Hwf. unfold resolveOrCreate.
  destruct (sessions st !! session_id_of req env) as [t|] eqn:Hk; [exact Hwf|].
  destruct (connect_throws env); intros k t' Hlook; cbn in *.
  - destruct (Hwf k t' Hlook). split; [assumption|lia].
  - destruct (decide (session_id_of req env = k)) as [<-|Hne].
    + rewrite lookup_insert_eq in Hlook. inversion Hlook; subst. cbn. split; [reflexivity|lia].
    + rewrite lookup_insert_ne in Hlook by exact Hne.
      destruct (Hwf k t' Hlook). split; [assumption|lia].
Qed.

Lemma mcp_route_wf (st : app_state) (req : request) (env : environment) (rp : reply) :
  sessions_wf st → sessions_wf (mcp_route st req env rp).1.1.
Proof.
  intros Hwf. pose proof (resolveOrCreate_wf st req env Hwf) as Hres.
  unfold mcp_route, mcp_try, mcp_catch, handleRequest.
  destruct (resolveOrCreate st req env) as [st1 [[k t]|e]]; cbn in Hres |- *.
  - destruct (transport_throws env); [destruct (sent _)|]; exact Hres.
  - destruct (sent rp); exact Hres.
Qed.

Lemma serve_wf (inbound : list (request * environment)) (st : app_state) :
  sessions_wf st → sessions_wf (serve st inbound).
Proof.
  revert st. induction inbound as [|[req env] rest IH]; intros st Hwf; [exact Hwf|].
  cbn [serve]. apply IH, mcp_route_wf, Hwf.
Qed.

(** A session that is in the map is returned as it is. *)
Lemma resolveOrCreate_known (st : app_state) (req : request) (env : environment)
    (t : transport) :
  sessions st !! session_id_of req env = Some t →
  resolveOrCreate st req env = (st, Returned (session_id_of req env, t)).
Proof. intros H. unfold resolveOrCreate. rewrite H. reflexivity. Qed.

(** Resolving a session, when [connect] does not throw, returns the
    transport stored under the session's key afterwards. *)
Lemma resolveOrCreate_stores (st : app_state) (req : request) (env : environment) :
  connect_throws env = None →
  ∃ (t : transport) (st1 : app_state),
    resolveOrCreate st req env = (st1, Returned (session_id_of req env, t))
    ∧ sessions st1 !! session_id_of req env = Some t
    ∧ (∀ k, k ≠ session_id_of req env → sessions st1 !! k = sessions st !! k).
Proof.
  intros Hc. unfold resolveOrCreate.
  destruct (sessions st !! session_id_of req env) as [t|] eqn:Hk.
  - exists t, st. split; [reflexivity|]. split; [exact Hk|]. intros; reflexivity.
  - rewrite Hc. eexists _, _. split; [reflexivity|]. cbn. split.
    + apply lookup_insert_eq.
    + intros k Hne. apply lookup_insert_ne. congruence.
Qed.

(** Two first contacts that supply the same identifier and overlap: the
    second arrives while the first still awaits [connect].  Each creates a
    transport of its own; the map ends with the one stored last. *)
Lemma overlapping_first_contacts :
  let known := mkRequest (Some "test-session") VNull in
  let s := sys_run (mkSystem started [])
             [Arrive known same_instant; Arrive known a_moment_later;
              Resume 0; Resume 1] in
  map flight_at (sys_flights s)
  = [AwaitHandle (mkTransport 0 "test-session");
     AwaitHandle (mkTransport 1 "test-session")]
  ∧ sessions (sys_app s) !! "test-session" = Some (mkTransport 1 "test-session").
Proof.
  cbn [sys_run fold_left sys_step]. unfold started, startServer, route_start.
  cbn [sessions sys_app sys_flights]. rewrite lookup_empty.
  cbn. split; [reflexivity|]. apply lookup_insert_eq.
Qed.

(** The claim C2 read on the code: two calls without identifier need not
    yield two sessions.  When the clock and the random source give the
    same values twice, the second call finds the session of the first:
    same key, same transport, nothing created. *)
Lemma same_instant_same_session :
  ∃ (t : transport) (st1 : app_state),
    resolveOrCreate started anonymous same_instant
    = (st1, Returned ("session-1700000000000-k3j9x2m1q", t))
    ∧ resolveOrCreate st1 anonymous same_instant
      = (st1, Returned ("session-1700000000000-k3j9x2m1q", t))
    ∧ allocated st1 = 1%nat.
Proof.
  eexists _, _. split; [|split].
  - unfold resolveOrCreate, started, startServer. cbn [sessions].
    rewrite lookup_empty. reflexivity.
  - apply (resolveOrCreate_known _ anonymous same_instant). cbn [sessions].
    apply lookup_insert_eq.
  - reflexivity.
Qed.

(** C2 (amended).  Session identifier round trip, on a session map as the
    route builds it, for calls whose [connect] does not throw.  Two calls
    without identifier yield two distinct sessions (two distinct keys
    bound to two distinct transports) provided the two generated
    identifiers differ: the identifier is built from the clock and a
    random suffix, with no check for a collision.  Two calls that supply
    the same non-empty identifier return the same transport, and the
    second call creates nothing: it leaves the state as it is. *)
Theorem session_round_trip (st : app_state) :
  sessions_wf st →
  (∀ (body1 body2 : value) (env1 env2 : environment),
     connect_throws env1 = None → connect_throws env2 = None →
     generated_id env1 ≠ generated_id env2 →
     ∃ (t1 t2 : transport) (st1 st2 : app_state),
       resolveOrCreate st (mkRequest None body1) env1
       = (st1, Returned (generated_id env1, t1))
       ∧ resolveOrCreate st1 (mkRequest None body2) env2
         = (st2, Returned (generated_id env2, t2))
       ∧ t1 ≠ t2
       ∧ sessions st2 !! generated_id env1 = Some t1
       ∧ sessions st2 !! generated_id env2 = Some t2)
  ∧ (∀ (sid : string) (body1 body2 : value) (env1 env2 : environment),
       sid ≠ "" → connect_throws env1 = None →
       ∃ (t : transport) (st1 : app_state),
         resolveOrCreate st (mkRequest (Some sid) body1) env1 = (st1, Returned (sid, t))
         ∧ resolveOrCreate st1 (mkRequest (Some sid) body2) env2
           = (st1, Returned (sid, t))).
Proof.
  intros Hwf. split.
  - intros body1 body2 env1 env2 Hc1 Hc2 Hne.
    destruct (resolveOrCreate_stores st (mkRequest None body1) env1 Hc1)
      as (t1 & st1 & Hr1 & Hs1 & Hother1).
    destruct (resolveOrCreate_stores st1 (mkRequest None body2) env2 Hc2)
      as (t2 & st2 & Hr2 & Hs2 & Hother2).
    change (session_id_of (mkRequest None body1) env1) with (generated_id env1) in *.
    change (session_id_of (mkRequest None body2) env2) with (generated_id env2) in *.
    exists t1, t2, st1, st2. split; [exact Hr1|]. split; [exact Hr2|].
    assert (Hs1' : sessions st2 !! generated_id env1 = Some t1)
      by (rewrite (Hother2 _ Hne); exact Hs1).
    split; [|split; [exact Hs1'|exact Hs2]].
    assert (Hwf2 : sessions_wf st2).
    { pose proof (resolveOrCreate_wf st (mkRequest None body1) env1 Hwf) as H1.
      rewrite Hr1 in H1.
      pose proof (resolveOrCreate_wf st1 (mkRequest None body2) env2 H1) as H2.
      rewrite Hr2 in H2. exact H2. }
    intros Heq. subst t2.
    destruct (Hwf2 _ _ Hs1') as [Hk1 _]. destruct (Hwf2 _ _ Hs2) as [Hk2 _].
    congruence.
  - intros sid body1 body2 env1 env2 Hsid Hc1.
    destruct (resolveOrCreate_stores st (mkRequest (Some sid) body1) env1 Hc1)
      as (t & st1 & Hr1 & Hs1 & _).
    assert (Hid : ∀ body env, session_id_of (mkRequest (Some sid) body) env = sid).
    { intros body env. unfold session_id_of. cbn. destruct sid; [congruence|reflexivity]. }
    rewrite Hid in Hr1, Hs1.
    exists t, st1. split; [exact Hr1|].
    rewrite <- (Hid body2 env2) at 2.
    apply resolveOrCreate_known. rewrite Hid. exact Hs1.
Qed.

Lemma session_round_trip_witness :
  (∃ (t1 t2 : transport) (st1 st2 : app_state),
     resolveOrCreate started anonymous same_instant
     = (st1, Returned ("session-1700000000000-k3j9x2m1q", t1))
     ∧ resolveOrCreate st1 anonymous a_moment_later
       = (st2, Returned ("session-1700000000001-k3j9x2m1q", t2))
     ∧ t1 ≠ t2
     ∧ sessions st2 !! "session-1700000000000-k3j9x2m1q" = Some t1
     ∧ sessions st2 !! "session-1700000000001-k3j9x2m1q" = Some t2)
  ∧ (∃ (t : transport) (st1 : app_state),
       resolveOrCreate started (mkRequest (Some "test-session") VNull) same_instant
       = (st1, Returned ("test-session", t))
       ∧ resolveOrCreate st1 (mkRequest (Some "test-session") VNull) a_moment_later
         = (st1, Returned ("test-session", t))).
Proof.
  destruct (session_round_trip started (started_wf _)) as [Hfresh Hsame].
  split.
  - apply (Hfresh VNull VNull same_instant a_moment_later eq_refl eq_refl).
    vm_compute. discriminate.
  - apply (Hsame "test-session" VNull VNull same_instant a_moment_later);
      [discriminate|reflexivity].
Defined.

End Sessions.

(* ===================================================================== *)
(** * Further properties of the code                                      *)
(* ===================================================================== *)

(** ** Error replies ([utils/errorHandler.ts]) *)

Section ErrorReplies.
Import JS Zod Schemas Mcp ErrorHandler Route Vocabulary Terms.



(** X3.  The body [handleError] sends has a [stack] field only in
    development, and then only for a plain error whose message does not
    mention "MCP"; in every other case the stack is not disclosed. *)
Theorem stack_only_in_development (error : js_error)
    (timestamp stack : string) (development : bool) :
  ∃ fields : list (string * value),
    payload (handleError error timestamp development stack).2 = Some (VObject fields)
    ∧ get "stack" fields
      = match error_class_of error with
        | ClsError =>
            if development && negb (includes "MCP" (error_message error))
            then VString stack
            else VUndefined
        | _ => VUndefined
        end.
Proof.
  unfold handleError. cbn [snd].
  destruct (error_class_of error); try destruct (includes "MCP" (error_message error));
    destruct development; eexists; (split; [reflexivity|]); reflexivity.
Qed.

(** X4.  The two validation helpers end differently at the error handler.
    On data its schema rejects, [validateAndThrow] throws a
    [ValidationError] that [handleError] answers with status 400 and the
    schema's issues as details, in an unchanged world;
    [validateToolArgs] throws a plain [Error], which [handleError]
    answers with status 500 and without details. *)
Theorem validation_failures_answered {T : Type} (s : schema T) (data : value)
    (message timestamp stack : string) (development : bool) (w : world) :
  accepts s data = false →
  ∃ e1 e2 : js_error,
    validateAndThrow data s message w = (w, Threw (ThrownError e1))
    ∧ (handleError e1 timestamp development stack).2
      = send 400 (VObject [("error", VString "ValidationError");
                           ("message", VString message);
                           ("details", VArray (map issue_value (issues_of (s [] data))));
                           ("statusCode", number_value 400);
                           ("timestamp", VString timestamp)])
    ∧ validateToolArgs s data w = (w, Threw (ThrownError e2))
    ∧ statusCode (handleError e2 timestamp development stack).2 = 500%Z
    ∧ ∀ fields, payload (handleError e2 timestamp development stack).2
                = Some (VObject fields) → get "details" fields = VUndefined.
Proof.
  intros Hrej.
  exists (ValidationError message (issues_of (s [] data))),
         (new_Error ("Validation failed: " +:+
                     join ", " (map describe_issue (issues_of (s [] data))))).
  split; [|split; [|split; [|split]]].
  - unfold validateAndThrow, parse. unfold accepts in Hrej.
    destruct (s [] data); [discriminate| |]; reflexivity.
  - reflexivity.
  - exact (validateToolArgs_rejected s data w Hrej).
  - unfold handleError. cbn [snd error_class_of new_Error error_message error_statusCode].
    destruct (includes "MCP" _); reflexivity.
  - unfold handleError. cbn [snd error_class_of new_Error error_message error_statusCode].
    destruct (includes "MCP" _); destruct development; cbn; intros fields [= <-];
      reflexivity.
Qed.

Lemma validation_failures_answered_witness :
  accepts SayHelloSchema (VObject [("name", VString "")]) = false
  ∧ ∃ e1 e2 : js_error,
      validateAndThrow (VObject [("name", VString "")]) SayHelloSchema
        "Validation failed" quiet_world
      = (quiet_world, Threw (ThrownError e1))
      ∧ (handleError e1 "2025-01-01T10:00:00.000Z" false "").2
        = send 400
            (VObject [("error", VString "ValidationError");
                      ("message", VString "Validation failed");
                      ("details",
                       VArray (map issue_value
                                 (issues_of (SayHelloSchema []
                                               (VObject [("name", VString "")])))));
                      ("statusCode", number_value 400);
                      ("timestamp", VString "2025-01-01T10:00:00.000Z")])
      ∧ validateToolArgs SayHelloSchema (VObject [("name", VString "")]) quiet_world
        = (quiet_world, Threw (ThrownError e2))
      ∧ statusCode (handleError e2 "2025-01-01T10:00:00.000Z" false "").2 = 500%Z
      ∧ ∀ fields, payload (handleError e2 "2025-01-01T10:00:00.000Z" false "").2
                  = Some (VObject fields) → get "details" fields = VUndefined.
Proof.
  split; [reflexivity|].
  exact (validation_failures_answered SayHelloSchema (VObject [("name", VString "")])
           "Validation failed" "2025-01-01T10:00:00.000Z" "" false quiet_world eq_refl).
Defined.

End ErrorReplies.

(** ** What the schemas accept ([schemas/commonSchemas.ts],
    [schemas/toolSchemas.ts]) *)

Section Accepted.
Import JS Zod Schemas Mcp Weather ErrorHandler Route Vocabulary Terms.

Lemma not_nan_inv (a : float) : js_is_nan a = false → Prim2SF a ≠ S754_nan.
Proof.
  unfold js_is_nan, PrimFloat.is_nan. rewrite FloatAxioms.eqb_spec. unfold SFeqb.
  intros H Ha. rewrite Ha in H. discriminate.
Qed.

Lemma SFcompare_total (x y : spec_float) :
  x ≠ S754_nan → y ≠ S754_nan → ∃ c, SFcompare x y = Some c.
Proof.
  destruct x as [sx|sx| |sx mx ex], y as [sy|sy| |sy my ey]; cbn; intros Hx Hy;
    try congruence; eauto;
    repeat match goal with
      | |- context [match ?b with _ => _ end] => destruct b
      end; eauto.
Qed.

(** Two numbers compare: [a < b] or [b <= a]. *)
Lemma js_not_lt_le (a b : float) :
  js_is_nan a = false → js_is_nan b = false → js_lt a b = false → js_le b a = true.
Proof.
  intros Ha Hb. apply not_nan_inv in Ha, Hb.
  unfold js_le, js_lt. rewrite FloatAxioms.leb_spec, FloatAxioms.ltb_spec.
  unfold SFleb, SFltb.
  rewrite (SFcompare_antisym (Prim2SF a) (Prim2SF b)).
  destruct (SFcompare_total _ _ Ha Hb) as [c ->].
  destruct c; cbn; congruence.
Qed.

(** A number the bounded schema lets through lies within the bounds. *)
Lemma number_Valid_inv (lo hi x : float) (msg1 msg2 : string) (path : list string)
    (v : value) :
  js_is_nan lo = false → js_is_nan hi = false →
  z_number [NumMin lo msg1; NumMax hi msg2] path v = Valid x →
  v = VNumber x ∧ within lo hi x.
Proof.
  intros Hlo Hhi. unfold z_number. destruct v as [| | |y| | |]; try discriminate.
  destruct (js_is_nan y) eqn:Hy; [discriminate|].
  cbn [flat_map number_check_fails].
  destruct (js_lt y lo) eqn:H1; [discriminate|].
  change (js_gt y hi) with (js_lt hi y).
  destruct (js_lt hi y) eqn:H2; [discriminate|].
  cbn. intros [= <-]. split; [reflexivity|].
  split; apply js_not_lt_le; assumption.
Qed.

Lemma prop_object (args : value) (k : string) (v : value) :
  prop args k = v → v ≠ VUndefined → ∃ fields, args = VObject fields ∧ get k fields = v.
Proof. destruct args; cbn; intros H Hv; try congruence. eauto. Qed.

(** The coordinates the forecast schema lets through. *)
Lemma forecast_args_inv (args : value) (v : WeatherForecastArgs) :
  WeatherForecastSchema [] args = Valid v →
  prop args "latitude" = VNumber (arg_latitude v)
  ∧ prop args "longitude" = VNumber (arg_longitude v)
  ∧ within (-90) 90 (arg_latitude v) ∧ within (-180) 180 (arg_longitude v).
Proof.
  unfold WeatherForecastSchema, z_object2.
  destruct args as [| | | | | |fields]; try discriminate.
  intros Hv. pose proof Hv as Hv'.
  apply ap_Valid_inv in Hv' as (f & lon & E1 & E2).
  pose proof E1 as E1'. apply ap_Valid_inv in E1' as (g & lat & Eg & E3).
  rewrite E3 in E1. injection Eg as <-. cbn in E1. injection E1 as <-.
  rewrite E3, E2 in Hv. cbn in Hv. injection Hv as <-. cbn [arg_latitude arg_longitude].
  unfold field, LatitudeSchema in E3. unfold field, LongitudeSchema in E2.
  apply number_Valid_inv in E3 as (Hlat & Hin1); [|reflexivity|reflexivity].
  apply number_Valid_inv in E2 as (Hlon & Hin2); [|reflexivity|reflexivity].
  cbn [prop]. repeat split; first [assumption | apply Hin1 | apply Hin2].
Qed.

(** The state code the alerts schema lets through. *)
Lemma alerts_args_inv (args : value) (v : WeatherAlertsArgs) :
  WeatherAlertsSchema [] args = Valid v →
  ∃ c1 c2 : ascii,
    arg_state v = String c1 (String c2 EmptyString)
    ∧ prop args "state" = VString (String c1 (String c2 EmptyString))
    ∧ is_upper c1 = true ∧ is_upper c2 = true.
Proof.
  unfold WeatherAlertsSchema, z_object1, field, StateSchema, z_string.
  destruct args as [| | | | | |fields]; try discriminate.
  cbn [prop]. destruct (get "state" fields) as [| | | |s| |]; try discriminate.
  cbn [flat_map string_check_fails].
  destruct s as [|c1 [|c2 [|c3 s]]]; cbn [two_uppercase];
    try (destruct (_ =? _)%Z; discriminate).
  destruct (is_upper c1) eqn:H1, (is_upper c2) eqn:H2; cbn;
    try (destruct (_ =? _)%Z; discriminate).
  intros [= <-]. exists c1, c2. repeat split; assumption.
Qed.


(** X6.  [WeatherAlertsSchema] accepts exactly the objects whose [state]
    is a string of two capital letters A-Z. *)
Theorem WeatherAlertsSchema_accepts (args : value) :
  accepts WeatherAlertsSchema args = true
  ↔ ∃ c1 c2 : ascii,
      prop args "state" = VString (String c1 (String c2 EmptyString))
      ∧ is_upper c1 = true ∧ is_upper c2 = true.
Proof.
  split.
  - intros Hacc. apply accepts_Valid in Hacc as (v & Hv).
    apply alerts_args_inv in Hv as (c1 & c2 & _ & Hstate & H1 & H2).
    exists c1, c2. repeat split; assumption.
  - intros (c1 & c2 & Hstate & H1 & H2).
    destruct (prop_object _ _ _ Hstate) as (fields & -> & Hget); [discriminate|].
    unfold accepts, WeatherAlertsSchema, z_object1, field, StateSchema, z_string.
    rewrite Hget. cbn. rewrite H1, H2. reflexivity.
Qed.

(** X7.  [WeatherForecastSchema] accepts exactly the objects whose
    [latitude] is a number between -90 and 90 and whose [longitude] is a
    number between -180 and 180, bounds included ([NaN] is no number). *)
Theorem WeatherForecastSchema_accepts (args : value) :
  accepts WeatherForecastSchema args = true
  ↔ ∃ latitude longitude : float,
      prop args "latitude" = VNumber latitude
      ∧ prop args "longitude" = VNumber longitude
      ∧ within (-90) 90 latitude ∧ within (-180) 180 longitude.
Proof.
  split.
  - intros Hacc. apply accepts_Valid in Hacc as (v & Hv).
    apply forecast_args_inv in Hv as (Hlat & Hlon & Hin1 & Hin2).
    exists (arg_latitude v), (arg_longitude v). repeat split;
      first [assumption | apply Hin1 | apply Hin2].
  - intros (lat & lon & Hlat & Hlon & Hin1 & Hin2).
    destruct (prop_object _ _ _ Hlat) as (fields & -> & Hget); [discriminate|].
    cbn [prop] in Hlon. unfold accepts.
    rewrite (forecast_args_accepted fields lat lon Hget Hlon Hin1 Hin2). reflexivity.
Qed.

(** X8.  [CalculateSchema] accepts exactly the objects whose [operation]
    is one of the four operations and whose [a] and [b] are numbers (not
    [NaN]), unless the operation is 'divide' and [b] equals zero. *)
Theorem CalculateSchema_accepts (args : value) :
  accepts CalculateSchema args = true
  ↔ ∃ (operation : string) (a b : float),
      prop args "operation" = VString operation
      ∧ prop args "a" = VNumber a ∧ prop args "b" = VNumber b
      ∧ In operation operations
      ∧ js_is_nan a = false ∧ js_is_nan b = false
      ∧ (operation = "divide" → js_strict_eq b 0 = false).
Proof.
  split.
  - unfold accepts, CalculateSchema, refine, z_object3, field, z_number.
    destruct args as [| | | | | |fields]; try discriminate. cbn [prop].
    destruct (z_enum operations _ _ (get "operation" fields)) as [op| |] eqn:Eop;
      [|unfold z_enum in Eop; destruct (get "operation" fields);
        try discriminate; destruct (existsb _ _); discriminate|].
    + pose proof (z_enum_Valid _ _ _ _ _ Eop) as Hin.
      unfold z_enum in Eop.
      destruct (get "operation" fields) as [| | | |s| |]; try discriminate.
      destruct (existsb _ _); [|discriminate]. injection Eop as ->.
      destruct (get "a" fields) as [| | |a| | |]; try discriminate.
      destruct (js_is_nan a) eqn:Ha; [discriminate|].
      destruct (get "b" fields) as [| | |b| | |]; try discriminate.
      destruct (js_is_nan b) eqn:Hb; [discriminate|].
      cbn. change (PrimFloat.eqb b 0) with (js_strict_eq b 0).
      destruct (String.eqb op "divide" && js_strict_eq b 0) eqn:Hdiv; [discriminate|].
      intros _. exists op, a, b. repeat split; try assumption; try reflexivity.
      intros ->. cbn in Hdiv. exact Hdiv.
    + destruct (get "a" fields) as [| | |a| | |]; try discriminate;
        try (destruct (js_is_nan a));
        destruct (get "b" fields) as [| | |b| | |]; try discriminate;
        try (destruct (js_is_nan b)); discriminate.
  - intros (op & a & b & Hop & Ha & Hb & Hin & Hna & Hnb & Hdiv).
    destruct (prop_object _ _ _ Hop) as (fields & -> & Hget); [discriminate|].
    cbn [prop] in Ha, Hb.
    unfold accepts, CalculateSchema, refine, z_object3, field, z_number, z_enum.
    rewrite Hget, Ha, Hb, Hna, Hnb.
    destruct Hin as [<- | [<- | [<- | [<- | []]]]]; cbn; try reflexivity.
    change (PrimFloat.eqb b 0) with (js_strict_eq b 0).
    rewrite (Hdiv eq_refl). reflexivity.
Qed.

End Accepted.

(** ** The weather plugin ([plugins/weatherPlugin.ts]) *)

Section WeatherPlugin.
Import JS Zod Schemas Mcp Weather ErrorHandler Route Plugins Vocabulary Terms.






End WeatherPlugin.

(** ** The session map of the [/mcp] route ([server.ts]) *)

Section SessionMap.
Import JS Mcp ErrorHandler Route Endpoints Vocabulary Terms.

Lemma prefix_append (p s : string) : String.prefix p (p +:+ s) = true.
Proof.
  induction p as [|c p IH]; [destruct s; reflexivity|].
  change (String.prefix (String c p) (String c (p +:+ s)) = true).
  cbn [String.prefix]. destruct (ascii_dec c c); [exact IH|congruence].
Qed.

(** What one request does to the session map: nothing, or one new entry
    under a key that was free, announced in the log. *)
Lemma mcp_route_sessions (st : app_state) (req : request) (env : environment)
    (rp : reply) :
  (sessions (mcp_route st req env rp).1.1 = sessions st
   ∧ sessions_announced (mcp_route st req env rp).1.1 = sessions_announced st)
  ∨ (sessions st !! session_id_of req env = None
     ∧ connect_throws env = None
     ∧ sessions (mcp_route st req env rp).1.1
       = <[session_id_of req env := mkTransport (allocated st) (session_id_of req env)]>
           (sessions st)
     ∧ sessions_announced (mcp_route st req env rp).1.1 = S (sessions_announced st)).
Proof.
  unfold mcp_route, mcp_try, resolveOrCreate, mcp_catch, handleRequest.
  destruct (sessions st !! session_id_of req env) as [t|] eqn:Hk.
  - left. destruct (transport_throws env); [destruct (sent _)|]; split; reflexivity.
  - destruct (connect_throws env) as [e|] eqn:Hc.
    + left. destruct (sent rp); split; reflexivity.
    + right. split; [reflexivity|]. split; [reflexivity|].
      unfold sessions_announced.
      destruct (transport_throws env); [destruct (sent _)|];
        cbn [fst snd sessions log List.filter announces_session];
        rewrite prefix_append; split; reflexivity.
Qed.

(** X12.  Requests served one after the other never remove or replace a
    session: every entry of the session map is still there, with the same
    transport, after any sequence of requests. *)
Theorem sessions_persist (st : app_state) (inbound : list (request * environment)) :
  sessions st ⊆ sessions (serve st inbound).
Proof.
  revert st. induction inbound as [|[req env] rest IH]; intros st; [reflexivity|].
  cbn [serve]. etransitivity; [|apply IH].
  destruct (mcp_route_sessions st req env fresh_reply)
    as [[-> _] | (Hk & _ & -> & _)]; [reflexivity|].
  apply insert_subseteq, Hk.
Qed.



Lemma flight_wf_mono (st st' : app_state) (f : flight) :
  (allocated st ≤ allocated st')%nat → flight_wf st f → flight_wf st' f.
Proof.
  unfold flight_wf. destruct (flight_at f); auto.
  intros Hle [H1 H2]. split; [exact H1|lia].
Qed.

Lemma sessions_wf_mono (st st' : app_state) :
  sessions st' = sessions st → (allocated st ≤ allocated st')%nat →
  sessions_wf st → sessions_wf st'.
Proof.
  intros Hs Hle Hwf k t Hk. rewrite Hs in Hk.
  destruct (Hwf k t Hk). split; [assumption|lia].
Qed.

Lemma route_resume_wf (st : app_state) (f : flight) :
  sessions_wf st → flight_wf st f →
  sessions_wf (route_resume st f).1
  ∧ allocated (route_resume st f).1 = allocated st
  ∧ flight_wf (route_resume st f).1 (route_resume st f).2.
Proof.
  intros Hwf Hf. unfold route_resume.
  destruct (flight_at f) as [sid t| t|] eqn:Hat.
  - unfold flight_wf in Hf. rewrite Hat in Hf.
    destruct (connect_throws (flight_env f)).
    + unfold mcp_catch. destruct (sent _); cbn;
        (split; [apply (sessions_wf_mono st); [reflexivity|cbn; lia|exact Hwf]|]);
        (split; [reflexivity|exact I]).
    + cbn. split; [|split; [reflexivity|exact I]].
      intros k t' Hk. cbn in Hk |- *.
      destruct (decide (sid = k)) as [<-|Hne].
      * rewrite lookup_insert_eq in Hk. injection Hk as <-. exact Hf.
      * rewrite lookup_insert_ne in Hk by exact Hne. exact (Hwf k t' Hk).
  - unfold handleRequest, mcp_catch.
    destruct (transport_throws (flight_env f)); [destruct (sent _)|]; cbn;
      (split; [first [exact Hwf
                     |apply (sessions_wf_mono st); [reflexivity|cbn; lia|exact Hwf]]|]);
      (split; [reflexivity|exact I]).
  - cbn. split; [exact Hwf|]. split; [reflexivity|exact Hf].
Qed.

Lemma sys_step_wf (s : system) (ev : event) : system_wf s → system_wf (sys_step s ev).
Proof.
  intros [Hwf Hfl]. destruct ev as [req env|i]; cbn [sys_step].
  - unfold route_start.
    destruct (sessions (sys_app s) !! session_id_of req env) as [t|] eqn:Hk.
    + split; [exact Hwf|]. cbn. apply Forall_app. split; [exact Hfl|].
      constructor; [exact I|constructor].
    + split; cbn.
      * apply (sessions_wf_mono (sys_app s)); cbn; auto.
      * apply Forall_app. split.
        -- eapply Forall_impl; [exact Hfl|]. intros f. apply flight_wf_mono. cbn. lia.
        -- constructor; [|constructor]. split; cbn; [reflexivity|lia].
  - destruct (sys_flights s !! i) as [f|] eqn:Hi; [|split; assumption].
    assert (Hf : flight_wf (sys_app s) f) by (eapply Forall_lookup_1; eassumption).
    destruct (route_resume_wf (sys_app s) f Hwf Hf) as (H1 & H2 & H3).
    destruct (route_resume (sys_app s) f) as [st' f']. cbn in H1, H2, H3 |- *.
    split; [exact H1|]. cbn. apply Forall_insert; [|exact H3].
    eapply Forall_impl; [exact Hfl|]. intros g. apply flight_wf_mono. lia.
Qed.

Lemma sys_run_wf (schedule : list event) (s : system) :
  system_wf s → system_wf (sys_run s schedule).
Proof.
  revert s. induction schedule as [|ev rest IH]; intros s Hs; [exact Hs|].
  cbn. apply IH, sys_step_wf, Hs.
Qed.

(** X14.  However the event loop interleaves the requests between their
    [await]s, every transport in the session map was created for the
    session identifier it is stored under (so no transport serves two
    sessions), and every request that awaits [connect] holds a transport
    created for its own identifier. *)
Theorem interleaved_sessions_wf (server : McpServer) (schedule : list event) :
  system_wf (sys_run (mkSystem (startServer server) []) schedule)
  ∧ ∀ (k1 k2 : string) (t : transport),
      sessions (sys_app (sys_run (mkSystem (startServer server) []) schedule)) !! k1
      = Some t →
      sessions (sys_app (sys_run (mkSystem (startServer server) []) schedule)) !! k2
      = Some t →
      k1 = k2.
Proof.
  assert (H : system_wf (sys_run (mkSystem (startServer server) []) schedule)).
  { apply sys_run_wf. split; [apply started_wf|constructor]. }
  split; [exact H|]. intros k1 k2 t H1 H2.
  destruct H as [Hwf _].
  destruct (Hwf k1 t H1) as [<- _]. destruct (Hwf k2 t H2) as [<- _]. reflexivity.
Qed.

Lemma route_resume_dom (st : app_state) (f : flight) :
  dom (sessions st) ⊆ dom (sessions (route_resume st f).1).
Proof.
  unfold route_resume.
  destruct (flight_at f) as [sid t| t|].
  - destruct (connect_throws (flight_env f)).
    + unfold mcp_catch. destruct (sent _); reflexivity.
    + cbn. apply dom_insert_subseteq.
  - unfold handleRequest, mcp_catch.
    destruct (transport_throws (flight_env f)); [destruct (sent _)|]; reflexivity.
  - reflexivity.
Qed.

Lemma sys_step_dom (s : system) (ev : event) :
  dom (sessions (sys_app s)) ⊆ dom (sessions (sys_app (sys_step s ev))).
Proof.
  destruct ev as [req env|i]; cbn [sys_step].
  - unfold route_start.
    destruct (sessions (sys_app s) !! session_id_of req env); reflexivity.
  - destruct (sys_flights s !! i) as [f|]; [|reflexivity].
    pose proof (route_resume_dom (sys_app s) f) as H.
    destruct (route_resume (sys_app s) f) as [st' f']. exact H.
Qed.

(** X15.  Under every interleaving of the requests, a session identifier
    that is in the session map stays in it: no step of the route removes
    an entry. *)
Theorem interleaved_sessions_stay (s : system) (schedule : list event) :
  dom (sessions (sys_app s)) ⊆ dom (sessions (sys_app (sys_run s schedule))).
Proof.
  revert s. induction schedule as [|ev rest IH]; intros s; [reflexivity|].
  cbn. etransitivity; [apply sys_step_dom|apply IH].
Qed.

Lemma sys_step_arrive_new (s : system) (req : request) (env : environment) :
  sessions (sys_app s) !! session_id_of req env = None →
  sys_step s (Arrive req env)
  = mkSystem (mkAppState (mcpServer (sys_app s)) (sessions (sys_app s))
                (S (allocated (sys_app s))) (log (sys_app s)))
      (sys_flights s ++
       [mkFlight env fresh_reply
          (AwaitConnect (session_id_of req env)
             (mkTransport (allocated (sys_app s)) (session_id_of req env)))]).
Proof. intros Hk. cbn [sys_step]. unfold route_start. rewrite Hk. reflexivity. Qed.

Lemma sys_step_resume_connected (s : system) (i : nat) (f : flight) (sid : string)
    (t : transport) :
  sys_flights s !! i = Some f →
  flight_at f = AwaitConnect sid t →
  connect_throws (flight_env f) = None →
  sys_step s (Resume i)
  = mkSystem (mkAppState (mcpServer (sys_app s)) (<[sid := t]> (sessions (sys_app s)))
                (allocated (sys_app s))
                (LogInfo ("Created new MCP session: " +:+ sid) :: log (sys_app s)))
      (<[i := mkFlight (flight_env f) (flight_reply f) (AwaitHandle t)]> (sys_flights s)).
Proof.
  intros Hi Hat Hc. cbn [sys_step]. rewrite Hi. unfold route_resume.
  rewrite Hat, Hc. reflexivity.
Qed.

(** X16.  Two first contacts with the same new session identifier that
    overlap (the second arrives while the first still awaits [connect])
    each get a transport of their own; the session map ends with the
    second one, and the first request is handled by a transport that the
    map no longer holds. *)
Theorem overlapping_contacts_replace (st : app_state) (sid : string)
    (env1 env2 : environment) :
  sid ≠ EmptyString →
  sessions st !! sid = None →
  connect_throws env1 = None → connect_throws env2 = None →
  map flight_at
    (sys_flights
       (sys_run (mkSystem st [])
          [Arrive (with_session sid) env1; Arrive (with_session sid) env2;
           Resume 0; Resume 1]))
  = [AwaitHandle (mkTransport (allocated st) sid);
     AwaitHandle (mkTransport (S (allocated st)) sid)]
  ∧ sessions
      (sys_app
         (sys_run (mkSystem st [])
            [Arrive (with_session sid) env1; Arrive (with_session sid) env2;
             Resume 0; Resume 1]))
    !! sid
    = Some (mkTransport (S (allocated st)) sid).
Proof.
  intros Hsid Hk Hc1 Hc2.
  assert (Hid : ∀ env, session_id_of (with_session sid) env = sid).
  { intros env. unfold session_id_of, with_session. cbn.
    destruct sid; [congruence|reflexivity]. }
  unfold sys_run. cbn [fold_left].
  rewrite (sys_step_arrive_new _ _ env1) by (rewrite Hid; exact Hk).
  rewrite (sys_step_arrive_new _ _ env2) by (rewrite Hid; exact Hk).
  rewrite !Hid. cbn [sys_app sys_flights allocated app].
  erewrite (sys_step_resume_connected _ 0); [|reflexivity|reflexivity|exact Hc1].
  erewrite (sys_step_resume_connected _ 1); [|reflexivity|reflexivity|exact Hc2].
  cbn. split; [reflexivity|]. apply lookup_insert_eq.
Qed.

Lemma overlapping_contacts_replace_witness :
  map flight_at
    (sys_flights
       (sys_run (mkSystem started [])
          [Arrive (with_session "alpha") same_instant;
           Arrive (with_session "alpha") a_moment_later;
           Resume 0; Resume 1]))
  = [AwaitHandle (mkTransport 0 "alpha"); AwaitHandle (mkTransport 1 "alpha")]
  ∧ sessions
      (sys_app
         (sys_run (mkSystem started [])
            [Arrive (with_session "alpha") same_instant;
             Arrive (with_session "alpha") a_moment_later;
             Resume 0; Resume 1]))
    !! "alpha"
    = Some (mkTransport 1 "alpha").
Proof.
  apply (overlapping_contacts_replace started "alpha" same_instant a_moment_later);
    [discriminate|apply lookup_empty|reflexivity|reflexivity].
Defined.

(** X17.  When [connect] fails for a new session, the route replies 500,
    stores nothing, and the failed transport is dropped: the next request
    with the same identifier, if [connect] then succeeds, gets a new
    transport, which is stored. *)
Theorem failed_connect_is_retried (st : app_state) (req : request)
    (env env' : environment) (error : thrown) :
  sessions st !! session_id_of req env = None →
  connect_throws env = Some error →
  connect_throws env' = None →
  session_id_of req env' = session_id_of req env →
  (mcp_route st req env fresh_reply).1.2 = send 500 (internal_error_body error)
  ∧ sessions (mcp_route st req env fresh_reply).1.1 = sessions st
  ∧ ∃ st2 : app_state,
      resolveOrCreate (mcp_route st req env fresh_reply).1.1 req env'
      = (st2, Returned (session_id_of req env,
                        mkTransport (S (allocated st)) (session_id_of req env)))
      ∧ sessions st2 !! session_id_of req env
        = Some (mkTransport (S (allocated st)) (session_id_of req env)).
Proof.
  intros Hk Hc Hc' Hid.
  unfold mcp_route, mcp_try, resolveOrCreate. rewrite Hk, Hc. cbn.
  split; [reflexivity|]. split; [reflexivity|].
  rewrite Hid, Hk, Hc'. eexists. split; [reflexivity|]. cbn. apply lookup_insert_eq.
Qed.

Lemma failed_connect_is_retried_witness :
  (mcp_route started anonymous connect_fails fresh_reply).1.2
  = send 500 (internal_error_body (ThrownError (new_Error "connect failed")))
  ∧ sessions (mcp_route started anonymous connect_fails fresh_reply).1.1
    = sessions started
  ∧ ∃ st2 : app_state,
      resolveOrCreate (mcp_route started anonymous connect_fails fresh_reply).1.1
        anonymous same_instant
      = (st2, Returned (session_id_of anonymous connect_fails,
                        mkTransport 1 (session_id_of anonymous connect_fails)))
      ∧ sessions st2 !! session_id_of anonymous connect_fails
        = Some (mkTransport 1 (session_id_of anonymous connect_fails)).
Proof.
  apply (failed_connect_is_retried started anonymous connect_fails same_instant
           (ThrownError (new_Error "connect failed")));
    [apply lookup_empty|reflexivity|reflexivity|reflexivity].
Defined.

(** X18.  The [onClose] hook forgets every session: afterwards the map is
    empty, and a request that supplies an identifier known before gets a
    new transport, different from every transport the map held. *)
Theorem onClose_forgets_sessions (st : app_state) (req : request) (env : environment) :
  sessions_wf st →
  connect_throws env = None →
  size (sessions (onClose st)) = 0%nat
  ∧ ∃ st1 : app_state,
      resolveOrCreate (onClose st) req env
      = (st1, Returned (session_id_of req env,
                        mkTransport (allocated st) (session_id_of req env)))
      ∧ ∀ (k : string) (t : transport),
          sessions st !! k = Some t →
          t ≠ mkTransport (allocated st) (session_id_of req env).
Proof.
  intros Hwf Hc. split; [apply map_size_empty|].
  unfold resolveOrCreate, onClose. cbn [sessions allocated].
  rewrite lookup_empty, Hc. eexists. split; [reflexivity|].
  intros k t Hk Heq. destruct (Hwf k t Hk) as [_ Hlt]. rewrite Heq in Hlt. cbn in Hlt. lia.
Qed.

Lemma onClose_forgets_sessions_witness :
  size (sessions (onClose (serve started [(with_session "alpha", same_instant)]))) = 0%nat
  ∧ ∃ st1 : app_state,
      resolveOrCreate (onClose (serve started [(with_session "alpha", same_instant)]))
        (with_session "alpha") same_instant
      = (st1, Returned (session_id_of (with_session "alpha") same_instant,
                        mkTransport
                          (allocated (serve started [(with_session "alpha", same_instant)]))
                          (session_id_of (with_session "alpha") same_instant)))
      ∧ ∀ (k : string) (t : transport),
          sessions (serve started [(with_session "alpha", same_instant)]) !! k = Some t →
          t ≠ mkTransport
                (allocated (serve started [(with_session "alpha", same_instant)]))
                (session_id_of (with_session "alpha") same_instant).
Proof.
  apply (onClose_forgets_sessions (serve started [(with_session "alpha", same_instant)])
           (with_session "alpha") same_instant);
    [apply serve_wf, started_wf|reflexivity].
Defined.


End SessionMap.

(** ** The request handlers and the hand-checked tools *)

Section Handlers.
Import JS Zod Schemas Mcp ErrorHandler ServerOfficial Prompts Vocabulary Terms.

Lemma is_str_true (v : value) (s : string) : is_str v s = true → v = VString s.
Proof.
  destruct v; cbn; try discriminate. intros H. apply String.eqb_eq in H. congruence.
Qed.

(** X20.  The tools that [tools/list] announces are exactly the names
    that [tools/call] dispatches on: a call to a listed tool never ends in
    "Unknown tool", a call to any other name always does. *)
Theorem listed_tools_are_dispatched (name args : value) (w : world) :
  ∃ listing : value,
    tools_list_handler w = (w, Returned listing)
    ∧ (In name (listed "tools" "name" listing)
       ↔ tools_call name args w
         ≠ (w, Threw (ThrownError (new_Error ("Unknown tool: " +:+ ToString name))))).
Proof.
  eexists. split; [reflexivity|]. cbn [listed prop get String.eqb Ascii.eqb Bool.eqb map].
  split.
  - intros [<- | [<- | []]].
    + unfold tools_call. cbn [is_str String.eqb Ascii.eqb Bool.eqb].
      destruct (_ || _); intros H; injection H; intros; discriminate.
    + unfold tools_call, calculate_result, bind.
      cbn [is_str String.eqb Ascii.eqb Bool.eqb].
      destruct (is_nullish args); [intros H; discriminate H|].
      destruct (_ || _); [intros H; discriminate H|].
      destruct (is_str (prop args "operation") "add"); [intros H; discriminate H|].
      destruct (is_str (prop args "operation") "subtract"); [intros H; discriminate H|].
      destruct (is_str (prop args "operation") "multiply"); [intros H; discriminate H|].
      destruct (is_str (prop args "operation") "divide");
        [destruct (js_strict_eq _ _); intros H; discriminate H|].
      intros H. injection H as H. cbv [String.append] in H. discriminate H.
  - intros Hcall.
    destruct (is_str name "sayHello") eqn:E1;
      [left; symmetry; exact (is_str_true _ _ E1)|].
    destruct (is_str name "calculate") eqn:E2;
      [right; left; symmetry; exact (is_str_true _ _ E2)|].
    exfalso. apply Hcall. unfold tools_call. rewrite E1, E2. reflexivity.
Qed.

(** X21.  The resources that [resources/list] announces are exactly the
    URIs that [resources/read] serves, and what is read carries the URI
    asked for and the MIME type the listing announces for it. *)
Theorem listed_resources_are_read (uri : value) (w : world) :
  ∃ listing : value,
    resources_list_handler w = (w, Returned listing)
    ∧ (In uri (listed "resources" "uri" listing)
       ↔ ∃ r : resource_result, resources_read uri w = (w, Returned r))
    ∧ (∀ r : resource_result,
         resources_read uri w = (w, Returned r) →
         ∃ (entry : value) (text : string),
           In entry (entries "resources" listing)
           ∧ prop entry "uri" = uri
           ∧ contents r
             = [mkResourceContent (ToString uri) (ToString (prop entry "mimeType"))
                  text]).
Proof.
  eexists. split; [reflexivity|].
  cbn [listed entries prop get String.eqb Ascii.eqb Bool.eqb map].
  split; [split|].
  - intros [<- | [<- | []]]; eexists; reflexivity.
  - intros [r Hr]. revert Hr. unfold resources_read.
    destruct (is_str uri "mcp://server-info") eqn:E1;
      [intros _; left; symmetry; exact (is_str_true _ _ E1)|].
    destruct (is_str uri "mcp://hello-message") eqn:E2;
      [intros _; right; left; symmetry; exact (is_str_true _ _ E2)|].
    discriminate.
  - intros r. unfold resources_read.
    destruct (is_str uri "mcp://server-info") eqn:E1.
    + apply is_str_true in E1. subst uri. unfold bind. cbn [Date_toISOString].
      intros [= <-]. eexists _, _. split; [left; reflexivity|].
      split; reflexivity.
    + destruct (is_str uri "mcp://hello-message") eqn:E2; [|discriminate].
      apply is_str_true in E2. subst uri.
      intros [= <-]. eexists _, _. split; [right; left; reflexivity|].
      split; reflexivity.
Qed.

(** X22.  [prompts/get] serves exactly the prompt that [prompts/list]
    announces, and serves it whatever the arguments are: nothing is
    required of them, although the listing marks [name] as required.  Any
    other prompt name ends in "Unknown prompt". *)
Theorem listed_prompts_are_served (name args : value) (w : world) :
  ∃ listing : value,
    prompts_list_handler w = (w, Returned listing)
    ∧ (In name (listed "prompts" "name" listing)
       ↔ ∃ description text : string,
           prompts_get name args w = (w, Returned (prompt_result description text)))
    ∧ (In name (listed "prompts" "name" listing)
       ∨ prompts_get name args w
         = (w, Threw (ThrownError (new_Error ("Unknown prompt: " +:+ ToString name)))))
    ∧ In (VObject [("name", VString "name");
                   ("description", VString "The name of the person to greet");
                   ("required", VBool true)])
         (entries "arguments" (nth 0 (entries "prompts" listing) VUndefined)).
Proof.
  eexists. split; [reflexivity|].
  cbn [listed entries prop get String.eqb Ascii.eqb Bool.eqb map nth].
  split; [split|split].
  - intros [<- | []]. unfold prompts_get. cbn [is_str String.eqb Ascii.eqb Bool.eqb].
    eexists _, _. reflexivity.
  - intros (d & t & H). revert H. unfold prompts_get.
    destruct (is_str name "greeting-prompt") eqn:E; [|discriminate].
    intros _. left. symmetry. exact (is_str_true _ _ E).
  - unfold prompts_get.
    destruct (is_str name "greeting-prompt") eqn:E; [|right; reflexivity].
    left. left. symmetry. exact (is_str_true _ _ E).
  - left. reflexivity.
Qed.

(** X23.  Without a [name] and a [style] (absent, empty or otherwise
    falsy), the greeting prompt greets "there" casually. *)
Theorem greeting_prompt_defaults (args : value) (w : world) :
  truthy (prop args "name") = false →
  truthy (prop args "style") = false →
  prompts_get (VString "greeting-prompt") args w
  = (w, Returned (prompt_result "A casual greeting for there"
                    "Hi there! How's it going?")).
Proof.
  intros Hname Hstyle. unfold prompts_get, or_else. rewrite Hname, Hstyle. reflexivity.
Qed.

Lemma greeting_prompt_defaults_witness :
  prompts_get (VString "greeting-prompt") VUndefined quiet_world
  = (quiet_world, Returned (prompt_result "A casual greeting for there"
                              "Hi there! How's it going?")).
Proof.
  exact (greeting_prompt_defaults VUndefined quiet_world eq_refl eq_refl).
Defined.

(** X24.  The [sayHello] case of [tools/call] succeeds exactly when
    [name] is a non-empty string, of any length, and then greets that
    name; the world is unchanged. *)
Theorem official_sayHello_iff (args : value) (w : world) :
  ((∃ r : tool_result, tools_call (VString "sayHello") args w = (w, Returned r))
   ↔ ∃ s : string, prop args "name" = VString s ∧ s ≠ EmptyString)
  ∧ ∀ s : string,
      prop args "name" = VString s → s ≠ EmptyString →
      tools_call (VString "sayHello") args w
      = (w, Returned (text_result ("Hello, " +:+ s +:+ "! " +:+ party))).
Proof.
  unfold tools_call. cbn [is_str String.eqb Ascii.eqb Bool.eqb].
  split; [split|].
  - intros [r Hr]. revert Hr.
    destruct (prop args "name") as [| |b|x|s| |]; cbn [truthy is_string];
      rewrite ?orb_true_r; try discriminate.
    destruct (String.eqb_spec s ""); cbn; [discriminate|].
    intros _. exists s. split; [reflexivity|assumption].
  - intros (s & -> & Hs). cbn [truthy is_string].
    destruct (String.eqb_spec s ""); [contradiction|]. cbn. eexists. reflexivity.
  - intros s -> Hs. cbn [truthy is_string].
    destruct (String.eqb_spec s ""); [contradiction|]. reflexivity.
Qed.

(** X25.  The hand-checked tools registered with [registerTool] and the
    cases of the [tools/call] handler behave alike: [sayHello] has the
    same outcome on every argument object ([null] and [undefined] apart,
    which only the destructuring callback rejects with a [TypeError]),
    and [calculate] returns the same result on the same arguments (the
    two differ in the wording of two error messages only). *)
Theorem compat_matches_official (args : value) (w : world) :
  ServerCompat.sayHello args w
  = (if is_nullish args
     then (w, Threw (ThrownError
            (TypeError ("Cannot destructure property 'name' of 'args' as it is "
                        +:+ ToString args +:+ "."))))
     else tools_call (VString "sayHello") args w)
  ∧ (∀ r : tool_result,
       ServerCompat.calculate args w = (w, Returned r)
       ↔ tools_call (VString "calculate") args w = (w, Returned r))
  ∧ ((∃ e, ServerCompat.calculate args w = (w, Threw e))
     ↔ ∃ e, tools_call (VString "calculate") args w = (w, Threw e)).
Proof.
  split; [|split].
  - unfold ServerCompat.sayHello, tools_call. cbn [is_str String.eqb Ascii.eqb Bool.eqb].
    destruct (is_nullish args); reflexivity.
  - intros r. unfold ServerCompat.calculate, tools_call.
    cbn [is_str String.eqb Ascii.eqb Bool.eqb].
    destruct (is_nullish args); [split; discriminate|].
    destruct (_ || _); [split; discriminate|].
    unfold bind, ServerCompat.calculate_result, calculate_result.
    destruct (is_str (prop args "operation") "add"); [reflexivity|].
    destruct (is_str (prop args "operation") "subtract"); [reflexivity|].
    destruct (is_str (prop args "operation") "multiply"); [reflexivity|].
    destruct (is_str (prop args "operation") "divide");
      [destruct (js_strict_eq _ _); [split; discriminate|reflexivity]|].
    split; discriminate.
  - unfold ServerCompat.calculate, tools_call.
    cbn [is_str String.eqb Ascii.eqb Bool.eqb].
    destruct (is_nullish args); [split; intros _; eexists; reflexivity|].
    destruct (_ || _); [split; intros _; eexists; reflexivity|].
    unfold bind, ServerCompat.calculate_result, calculate_result.
    destruct (is_str (prop args "operation") "add"); [split; intros [e He]; discriminate|].
    destruct (is_str (prop args "operation") "subtract");
      [split; intros [e He]; discriminate|].
    destruct (is_str (prop args "operation") "multiply");
      [split; intros [e He]; discriminate|].
    destruct (is_str (prop args "operation") "divide");
      [destruct (js_strict_eq _ _);
       [split; intros _; eexists; reflexivity|split; intros [e He]; discriminate]|].
    split; intros _; eexists; reflexivity.
Qed.

(** X26.  Every resource the validating server registers answers a read
    with exactly one content, which carries the URI that was asked for
    and the MIME type the resource was registered with; reading changes
    nothing. *)
Theorem registered_resources_echo (r : registered_resource) (href : string)
    (w : world) :
  In r (resources ServerZod.createMCPServer) →
  ∃ text : string,
    readCallback r href w
    = (w, Returned (mkResourceResult [mkResourceContent href (resource_mimeType r) text])).
Proof.
  intros [<- | [<- | []]]; eexists; reflexivity.
Qed.

Lemma registered_resources_echo_witness :
  ∃ text : string,
    ServerZod.read_hello_message "mcp://hello-message" quiet_world
    = (quiet_world,
       Returned (mkResourceResult
                   [mkResourceContent "mcp://hello-message" "text/plain" text])).
Proof.
  exact (registered_resources_echo
           (mkResource "hello-message" "mcp://hello-message"
              (mkDescriptor "Hello Message" "A simple hello message resource")
              "text/plain" ServerZod.read_hello_message)
           "mcp://hello-message" quiet_world (or_intror (or_introl eq_refl))).
Defined.

End Handlers.

(** ** Code paths that agree *)

Section Agreement.
Import JS Zod Schemas Mcp Weather ErrorHandler Route Plugins Vocabulary Terms.




End Agreement.
